(** * ppt-xtract: the extraction pipeline of [extract_text_from_pptx]

    A shallow embedding of [src/ppt-xtract.py], lines 49-109, and the
    properties its specification states about it.

    Conventions of the embedding
    - a Python [str] is a [string]; a character is a code point below 256;
    - a Python [dict] is a [gmap];
    - a parsed XML part is an [Element] tree, as [xml.etree.ElementTree]
      presents it (tag in Clark notation, attribute dict, text, children);
    - the comment scan runs in a small state-and-exception monad [M]: the
      state is the dict [all_comments], and a raised exception leaves the
      state as it was when it was raised (Python does not roll back);
    - in the first part a shape's [top] is an integer (EMU), a slide that has
      a notes slide has a notes text frame, and the file is a ZIP package or
      is rejected by the loader; module [Pptx] runs the same lines on shapes
      without position, notes slides without text frame and directory
      packages, where they raise, and [objects_agree] relates the two. *)

From Stdlib Require Import ZArith String Ascii Permutation Sorted.
From stdpp Require Import gmap strings list fin_maps pretty sorting.

Local Open Scope string_scope.
Local Open Scope list_scope.

(** ** Python strings *)

Module PyStr.

Definition LF : string := String "010"%char EmptyString.

(** [bool(s)] for a string: the empty string is falsy. *)
Definition truthy (s : string) : bool :=
  match s with
  | EmptyString => false
  | String _ _ => true
  end.

(** [str.isspace] on one code point, restricted to code points below 256:
    TAB, LF, VT, FF, CR, FS, GS, RS, US, SPACE, NEL and NBSP. *)
Definition isspace (c : ascii) : bool :=
  let n := nat_of_ascii c in
  (Nat.leb 9 n && Nat.leb n 13) || (Nat.leb 28 n && Nat.leb n 32)
  || Nat.eqb n 133 || Nat.eqb n 160.

Fixpoint lstrip (s : string) : string :=
  match s with
  | EmptyString => EmptyString
  | String c s' => if isspace c then lstrip s' else s
  end.

Fixpoint rstrip (s : string) : string :=
  match s with
  | EmptyString => EmptyString
  | String c s' =>
      match rstrip s' with
      | EmptyString => if isspace c then EmptyString else String c EmptyString
      | r => String c r
      end
  end.

(** [s.strip()] *)
Definition strip (s : string) : string := rstrip (lstrip s).

(** [sep.join(parts)] *)
Fixpoint join (sep : string) (parts : list string) : string :=
  match parts with
  | [] => EmptyString
  | [x] => x
  | x :: rest => x +:+ sep +:+ join sep rest
  end.

(** [needle in hay] for two strings *)
Fixpoint contains (needle hay : string) : bool :=
  String.prefix needle hay
  || match hay with
     | EmptyString => false
     | String _ hay' => contains needle hay'
     end.

Fixpoint has_slash (s : string) : bool :=
  match s with
  | EmptyString => false
  | String c s' => Ascii.eqb c "/" || has_slash s'
  end.

(** [os.path.basename] (POSIX): what follows the last slash. *)
Fixpoint basename (s : string) : string :=
  match s with
  | EmptyString => EmptyString
  | String c s' =>
      if Ascii.eqb c "/" || has_slash s' then basename s' else s
  end.

(** [all(c.isspace() for c in s)] *)
Fixpoint all_space (s : string) : bool :=
  match s with
  | EmptyString => true
  | String c s' => isspace c && all_space s'
  end.

End PyStr.

Import PyStr.

(** ** XML trees, as [xml.etree.ElementTree] presents them *)

Module ET.

(** An element: its tag in Clark notation ([{uri}local]), its attribute
    dict, its text ([None] when the element has none) and its children. *)
#[warnings="-register-all"]
Inductive Element : Type :=
  mkElement (tag : string) (attrib : gmap string string)
            (text : option string) (children : list Element).

Definition tag (e : Element) : string :=
  match e with mkElement t _ _ _ => t end.
Definition attrib (e : Element) : gmap string string :=
  match e with mkElement _ a _ _ => a end.
Definition text (e : Element) : option string :=
  match e with mkElement _ _ t _ => t end.
Definition children (e : Element) : list Element :=
  match e with mkElement _ _ _ c => c end.

(** [elem.iter()]: the element and all its descendants, in document
    order. *)
Fixpoint iter (e : Element) : list Element :=
  match e with
  | mkElement _ _ _ cs =>
      e :: (fix iter_all (l : list Element) : list Element :=
              match l with
              | [] => []
              | c :: l' => iter c ++ iter_all l'
              end) cs
  end.

(** The descendants proper: [.//] never yields the element itself. *)
Definition descendants (e : Element) : list Element :=
  flat_map iter (children e).

Definition has_tag (t : string) (e : Element) : bool :=
  String.eqb (tag e) t.

(** [elem.findall('.//t')] *)
Definition findall_desc (t : string) (e : Element) : list Element :=
  filter (fun d => has_tag t d = true) (descendants e).

(** [elem.find('.//t')] *)
Definition find_desc (t : string) (e : Element) : option Element :=
  head (findall_desc t e).

(** [elem.findall('.//t/u')]: the [u] children of the [t] descendants. *)
Definition findall_desc_child (t u : string) (e : Element) : list Element :=
  flat_map (fun d => filter (fun c => has_tag u c = true) (children d))
           (findall_desc t e).

(** [elem.find('.//t/u')] *)
Definition find_desc_child (t u : string) (e : Element) : option Element :=
  head (findall_desc_child t u e).

(** [elem.get(key)] and [elem.get(key, default)] *)
Definition get (e : Element) (key : string) : option string :=
  attrib e !! key.
Definition get_default (e : Element) (key dflt : string) : string :=
  default dflt (attrib e !! key).

End ET.

Import ET.

(** ** The namespace map [ns] (lines 50-54) *)

Definition ns_p : string :=
  "http://schemas.openxmlformats.org/presentationml/2006/main".
Definition ns_a : string :=
  "http://schemas.openxmlformats.org/drawingml/2006/main".
Definition ns_r : string :=
  "http://schemas.openxmlformats.org/officeDocument/2006/relationships".

(** A prefixed name resolved through [ns]. *)
Definition qname (uri local : string) : string :=
  "{" +:+ uri +:+ "}" +:+ local.

Definition tag_Relationship : string := qname ns_r "Relationship".
Definition tag_cm : string := qname ns_p "cm".
Definition tag_text : string := qname ns_p "text".
Definition tag_authorLst : string := qname ns_p "authorLst".
Definition tag_author : string := qname ns_p "author".

(** ** Exceptions and outcomes *)

Inductive exn : Type :=
| FormatError            (* the package loader rejects the file *)
| BadZipFile             (* [zipfile.ZipFile] rejects the file *)
| ParseError             (* [ET.parse] on a part that is not well-formed XML *)
| TypeError              (* ["comments" in None], [None < 3] *)
| AttributeError (attr : string) (* [None.attr] *)
| IsADirectoryError      (* [zipfile.ZipFile] on a directory *)
| ValueError.            (* a string that cannot go into XML *)

Inductive outcome (A : Type) : Type :=
| Ok (a : A)
| Raise (e : exn).
Arguments Ok {A} a.
Arguments Raise {A} e.

(** ** The input: presentation object model and archive *)

(** A shape of a slide, as python-pptx presents it. *)
Record Shape : Type := mkShape {
  has_text_frame : bool;
  top : Z;
  paragraphs : list string   (* [shape.text_frame.paragraphs], each [.text] *)
}.

(** A slide: its shapes in document order, and the text of its notes slide
    ([None] when [has_notes_slide] is false). *)
Record Slide : Type := mkSlide {
  shapes : list Shape;
  notes_slide : option string
}.

Record presentation : Type := mkPresentation {
  slides : list Slide
}.

(** The bytes of an archive member, as far as [ET.parse] tells them apart. *)
Inductive part : Type :=
| Malformed
| Xml (root : Element).

(** The file at the given path: either not a package at all, or a package,
    given by what python-pptx loads from it and by its archive members. *)
Inductive pptx_file : Type :=
| NotAPackage
| Package (prs : presentation) (zf : gmap string part).

(** [Presentation(pptx_file)] *)
Definition Presentation (f : pptx_file) : outcome presentation :=
  match f with
  | NotAPackage => Raise FormatError
  | Package prs _ => Ok prs
  end.

(** [zipfile.ZipFile(pptx_file, 'r')] *)
Definition ZipFile (f : pptx_file) : outcome (gmap string part) :=
  match f with
  | NotAPackage => Raise BadZipFile
  | Package _ zf => Ok zf
  end.

(** [ET.parse(member)] followed by [getroot]. *)
Definition ET_parse (p : part) : outcome Element :=
  match p with
  | Malformed => Raise ParseError
  | Xml root => Ok root
  end.

(** ** The monad of the comment scan *)

Module CommentScan.

(** State: the dict [all_comments]. *)
Definition M (A : Type) : Type :=
  gmap nat (list string) -> outcome A * gmap nat (list string).

Definition ret {A} (a : A) : M A := fun m => (Ok a, m).

Definition bind {A B} (c : M A) (k : A -> M B) : M B :=
  fun m =>
    match c m with
    | (Ok a, m') => k a m'
    | (Raise e, m') => (Raise e, m')
    end.

Definition raise {A} (e : exn) : M A := fun m => (Raise e, m).

Definition lift {A} (o : outcome A) : M A := fun m => (o, m).

Definition modify (f : gmap nat (list string) -> gmap nat (list string))
  : M unit := fun m => (Ok tt, f m).

(** [for x in xs: body(x)] *)
Fixpoint for_each {A} (xs : list A) (body : A -> M unit) : M unit :=
  match xs with
  | [] => ret tt
  | x :: xs' => bind (body x) (fun _ => for_each xs' body)
  end.

End CommentScan.

Import CommentScan.

Notation "'let!' x ':=' c 'in' k" := (bind c (fun x => k))
  (at level 10, x name, c at level 100, k at level 200).
Notation "'run!' c 'in' k" := (bind c (fun _ => k))
  (at level 10, c at level 100, k at level 200).

(** ** The comment scan (lines 66-83) *)

(** The object an extraction run returns for one slide: the tuple
    [(slide_number, slide_text, comments)]. *)
Record SlideRecord : Type := mkRecord {
  slide_number : nat;
  slide_text : string;
  comments : list string
}.

(** [f'ppt/slides/_rels/slide{i}.xml.rels'] *)
Definition rel_file_path (i : nat) : string :=
  "ppt/slides/_rels/slide" +:+ pretty i +:+ ".xml.rels".

(** ['ppt/comments/' + os.path.basename(target)] *)
Definition comment_file_path (target : string) : string :=
  "ppt/comments/" +:+ basename target.

(** [f"{author}: {text}"] *)
Definition format_comment (author text : string) : string :=
  author +:+ ": " +:+ text.

(** Lines 81-82: the author and the text read from one comment node.
    [find] returns [None] when nothing matches, and an attribute access on
    [None] raises. *)
Definition comment_author_text (comment : Element)
  : outcome (string * string) :=
  match find_desc tag_text comment with
  | None => Raise (AttributeError "text")
  | Some text_el =>
      let text := default "" (ET.text text_el) in
      match find_desc_child tag_authorLst tag_author comment with
      | None => Raise (AttributeError "get")
      | Some author_el =>
          let author := get_default author_el "name" "Unknown Author" in
          Ok (author, text)
      end
  end.

(** [all_comments.setdefault(i, [])] *)
Definition setdefault (i : nat) : M unit :=
  modify (fun m => match m !! i with
                   | Some _ => m
                   | None => <[i := []]> m
                   end).

(** [slide_comments.append(s)], where [slide_comments] is the list object
    held by [all_comments] under key [i]. *)
Definition append_comment (i : nat) (s : string) : M unit :=
  modify (fun m => <[i := default [] (m !! i) ++ [s]]> m).

(** Lines 80-83: the loop over the comment nodes of one comment part. *)
Definition scan_comment_nodes (i : nat) (cms : list Element) : M unit :=
  for_each cms (fun comment =>
    let! author_text := lift (comment_author_text comment) in
    append_comment i (format_comment author_text.1 author_text.2)).

(** Lines 74-83: one relationship entry of slide [i]. *)
Definition scan_rel (zf : gmap string part) (i : nat) (rel : Element)
  : M unit :=
  match ET.get rel "Target" with
  | None => raise TypeError
  | Some target =>
      if contains "comments" target then
        match zf !! comment_file_path target with
        | Some cf =>
            run! setdefault i in
            let! comment_tree := lift (ET_parse cf) in
            scan_comment_nodes i (findall_desc tag_cm comment_tree)
        | None => ret tt
        end
      else ret tt
  end.

(** Lines 69-83: the body of the loop over the slide indices. *)
Definition scan_slide (zf : gmap string part) (i : nat) : M unit :=
  match zf !! rel_file_path i with
  | Some rel_file =>
      let! rel_tree := lift (ET_parse rel_file) in
      for_each (findall_desc tag_Relationship rel_tree) (scan_rel zf i)
  | None => ret tt
  end.

(** [range(1, n + 1)] *)
Definition range1 (n : nat) : list nat := seq 1 n.

(** Lines 67-83: what the [try] block runs. *)
Definition scan_comments (f : pptx_file) (prs : presentation) : M unit :=
  let! zf := lift (ZipFile f) in
  for_each (range1 (length (slides prs))) (scan_slide zf).

(** Lines 64-85: [all_comments] after the guarded scan, and what was
    printed on [sys.stderr]. *)
Inductive warning : Type :=
  CouldNotExtractComments (e : exn).

Definition collect_comments (f : pptx_file) (prs : presentation)
    (include_comments : bool) : gmap nat (list string) * list warning :=
  if include_comments then
    match scan_comments f prs ∅ with
    | (Ok _, all_comments) => (all_comments, [])
    | (Raise e, all_comments) => (all_comments, [CouldNotExtractComments e])
    end
  else (∅, []).

(** ** The slide text (lines 89-105) *)

(** [sorted(l, key=key)]: Python's sort is stable; so is this insertion
    sort, which puts an element before the first one whose key is not
    smaller. *)
Fixpoint insert_by {A} (key : A -> Z) (x : A) (l : list A) : list A :=
  match l with
  | [] => [x]
  | y :: l' => if (key x <=? key y)%Z then x :: l
               else y :: insert_by key x l'
  end.

Definition sorted {A} (key : A -> Z) (l : list A) : list A :=
  foldr (insert_by key) [] l.

(** The order [sorted] establishes. *)
Definition key_le {A} (key : A -> Z) (a b : A) : Prop := (key a <= key b)%Z.

(** Line 89 *)
Definition text_shapes (slide : Slide) : list Shape :=
  sorted top (filter (fun s => has_text_frame s = true) (shapes slide)).

(** Lines 93-96: the inner loop, appending the truthy paragraph texts. *)
Definition shape_text (shape : Shape) : list string :=
  fold_left (fun acc ptext => if truthy ptext then acc ++ [ptext] else acc)
            (paragraphs shape) [].

Definition line_break : string := "  " +:+ LF.
Definition blank_line : string := LF +:+ LF.
Definition notes_header : string := LF +:+ "--- Speaker Notes ---" +:+ LF.

(** Lines 91-98: the loop over the sorted shapes. *)
Definition shape_parts (shapes : list Shape) : list string :=
  fold_left (fun parts shape => parts ++ [join line_break (shape_text shape)])
            shapes [].

(** Lines 100-103 *)
Definition add_notes (slide : Slide) (parts : list string) : list string :=
  match notes_slide slide with
  | Some notes_text =>
      if truthy (strip notes_text) then parts ++ [notes_header +:+ notes_text]
      else parts
  | None => parts
  end.

(** Lines 89-105: [slide_text] of one slide. *)
Definition slide_body_text (slide : Slide) : string :=
  let slide_text_parts := add_notes slide (shape_parts (text_shapes slide)) in
  strip (join blank_line (filter (fun p => truthy p = true) slide_text_parts)).

(** ** The extraction (lines 56-109) *)

(** Lines 87-107: the loop over [enumerate(prs.slides)], from index [i]. *)
Fixpoint build_records (all_comments : gmap nat (list string)) (i : nat)
    (sl : list Slide) (extracted_data : list SlideRecord) : list SlideRecord :=
  match sl with
  | [] => extracted_data
  | slide :: sl' =>
      let slide_number := i + 1 in
      let comments := default [] (all_comments !! slide_number) in
      build_records all_comments (S i) sl'
        (extracted_data
           ++ [mkRecord slide_number (slide_body_text slide) comments])
  end.

(** What a call does: the value returned or the exception raised, and the
    warnings printed on [sys.stderr]. *)
Definition extract_text_from_pptx (pptx : pptx_file) (include_comments : bool)
  : outcome (list SlideRecord) * list warning :=
  match Presentation pptx with
  | Raise e => (Raise e, [])
  | Ok prs =>
      let '(all_comments, stderr) :=
        collect_comments pptx prs include_comments in
      (Ok (build_records all_comments 0 (slides prs) []), stderr)
  end.

(** ** The comment scan, read as list functions *)

(** The comment nodes of a list that are read before the first failure, as
    (author, text) pairs, and that failure if there is one. *)
Fixpoint parse_prefix (cms : list Element)
  : list (string * string) * option exn :=
  match cms with
  | [] => ([], None)
  | comment :: cms' =>
      match comment_author_text comment with
      | Ok author_text =>
          (author_text :: (parse_prefix cms').1, (parse_prefix cms').2)
      | Raise e => ([], Some e)
      end
  end.

Definition format_pair (author_text : string * string) : string :=
  format_comment author_text.1 author_text.2.

(** [all_comments] after the strings [new] were appended under key [i]. *)
Definition extend (i : nat) (new : list string)
    (m : gmap nat (list string)) : gmap nat (list string) :=
  match new with
  | [] => m
  | _ => <[i := default [] (m !! i) ++ new]> m
  end.

(** What a record gets from [all_comments]: line 106. *)
Definition comments_at (m : gmap nat (list string)) (i : nat) : list string :=
  default [] (m !! i).

(** A computation that leaves every key but [i] of [all_comments] alone. *)
Definition touches_only (i : nat) (c : M unit) : Prop :=
  forall (m : gmap nat (list string)) (k : nat), k <> i -> (c m).2 !! k = m !! k.

(** The outcomes the reading of comment nodes can have: success, or the
    [AttributeError] of a node without text element or without author. *)
Definition node_outcome (o : outcome unit) : Prop :=
  match o with
  | Ok _ | Raise (AttributeError _) => True
  | Raise _ => False
  end.

Definition outcome_of (failure : option exn) : outcome unit :=
  match failure with
  | None => Ok tt
  | Some e => Raise e
  end.

(** ** The specification's wording of the slide text

    Section 4.3 of the specification, steps 3 to 6, written as it reads; the
    theorems below compare it with [slide_body_text]. *)

Module Spec.

(** Step 3: the non-empty paragraphs, joined with the line-break marker. *)
Definition shape_text (shape : Shape) : string :=
  join line_break (filter (fun p => truthy p = true) (paragraphs shape)).

(** Step 5: the notes section, when it has non-blank content. *)
Definition notes_part (slide : Slide) : list string :=
  match notes_slide slide with
  | Some notes_text =>
      if all_space notes_text then [] else [notes_header +:+ notes_text]
  | None => []
  end.

(** Steps 4 and 6 over steps 3 and 5. *)
Definition body_text (slide : Slide) : string :=
  strip (join blank_line
           (filter (fun t => truthy t = true)
                   (map shape_text (text_shapes slide) ++ notes_part slide))).


(** Section 3: one record per slide, numbered from 1, for a given
    [all_comments]. *)
Definition records (all_comments : gmap nat (list string))
    (sl : list Slide) : list SlideRecord :=
  imap (fun i slide =>
          mkRecord (i + 1) (slide_body_text slide)
                   (default [] (all_comments !! (i + 1)))) sl.

(** Section 4.2, steps 1 to 3: the comment nodes of slide [i], through
    the relationship entries whose target mentions "comments" and whose
    comment part is in the archive, in document order. *)
Definition rel_comment_nodes (zf : gmap string part) (rel : Element)
  : list Element :=
  match ET.get rel "Target" with
  | Some target =>
      if contains "comments" target then
        match zf !! comment_file_path target with
        | Some (Xml comment_tree) => findall_desc tag_cm comment_tree
        | _ => []
        end
      else []
  | None => []
  end.

Definition slide_comment_nodes (zf : gmap string part) (i : nat)
  : list Element :=
  match zf !! rel_file_path i with
  | Some (Xml rel_tree) =>
      flat_map (rel_comment_nodes zf)
               (findall_desc tag_Relationship rel_tree)
  | _ => []
  end.

End Spec.

(** ** Sample packages *)

Module Sample.

Definition el (t : string) (cs : list Element) : Element :=
  mkElement t ∅ None cs.

Definition text_node (t : string) : Element :=
  mkElement tag_text ∅ (Some t) [].

Definition author_list (authors : list Element) : Element :=
  el tag_authorLst authors.

Definition author_node (name : string) : Element :=
  mkElement tag_author {["name" := name]} None [].

(** A comment node with one named author and a text. *)
Definition cm_node (author text : string) : Element :=
  el tag_cm [author_list [author_node author]; text_node text].

Definition cmLst (cms : list Element) : part :=
  Xml (el (qname ns_p "cmLst") cms).

Definition rels (targets : list string) : part :=
  Xml (el (qname ns_r "Relationships")
          (map (fun t => mkElement tag_Relationship {["Target" := t]} None [])
               targets)).

Definition text_shape (t : Z) (ps : list string) : Shape := mkShape true t ps.
Definition picture (t : Z) : Shape := mkShape false t [].

(** "Title" above "Subtitle", in both creation orders. *)
Definition title_slide : Slide :=
  mkSlide [text_shape 100 ["Title"]; text_shape 200 ["Subtitle"]] None.
Definition title_slide_rev : Slide :=
  mkSlide [text_shape 200 ["Subtitle"]; text_shape 100 ["Title"]] None.

Definition image_slide : Slide := mkSlide [picture 0] None.

Definition blank_shapes_slide : Slide :=
  mkSlide [text_shape 10 [""; " "]; picture 5; text_shape 20 []] (Some " ").

Definition deck : presentation :=
  mkPresentation [title_slide_rev; image_slide; blank_shapes_slide].

(** Slide 1 has a comment part with two comments. *)
Definition alice_bob : list Element :=
  [cm_node "Alice" "Looks good"; cm_node "Bob" "Fix typo"].

Definition archive (part1 part2 part3 : list Element) : gmap string part :=
  <[rel_file_path 1 :=
      rels ["../slideLayouts/slideLayout1.xml"; "../comments/comment1.xml"]]>
  (<[rel_file_path 2 := rels ["../comments/comment2.xml"]]>
  (<[rel_file_path 3 := rels ["../comments/comment3.xml"]]>
  (<["ppt/comments/comment1.xml" := cmLst part1]>
  (<["ppt/comments/comment2.xml" := cmLst part2]>
  (<["ppt/comments/comment3.xml" := cmLst part3]> ∅))))).

Definition commented : pptx_file :=
  Package deck (archive alice_bob [] []).

(** A comment node with no author list, and one with no text element. *)
Definition cm_no_author_list (text : string) : Element :=
  el tag_cm [text_node text].
Definition cm_empty_author_list (text : string) : Element :=
  el tag_cm [author_list []; text_node text].
Definition cm_no_text (author : string) : Element :=
  el tag_cm [author_list [author_node author]].

(** A comment node whose author has no [name], and whose text element is
    empty. *)
Definition cm_unnamed_empty : Element :=
  el tag_cm [author_list [el tag_author []]; mkElement tag_text ∅ None []].

(** The comments field of the first record, when the comment part of
    slide 1 lists one comment node for each given (author, text). *)
Definition first_comments (author_text : list (string * string))
  : list string :=
  match (extract_text_from_pptx
           (Package deck
              (archive (map (fun p => cm_node p.1 p.2) author_text) [] []))
           true).1 with
  | Ok (r :: _) => comments r
  | _ => []
  end.

(** Slide 2's second comment has no text element; slide 3 has comments. *)
Definition broken_part : list Element :=
  [cm_node "Alice" "Looks good"; cm_no_text "Bob"; cm_node "Carol" "Ship it"].

Definition partial_failure : pptx_file :=
  Package deck (archive alice_bob broken_part [cm_node "Dan" "Last slide"]).

(** Slide 1 points to a comment part that the archive does not hold. *)
Definition missing_part : pptx_file :=
  Package deck
    (<[rel_file_path 1 := rels ["../comments/comment9.xml"]]> ∅).

(** Slide 1's only comment has no author list. *)
Definition anonymous : pptx_file :=
  Package deck (archive [cm_no_author_list "Hi"] [] []).

(** Shapes with white space around their text, and an empty paragraph. *)
Definition padded_slide : Slide :=
  mkSlide [text_shape 200 [" Subtitle  "];
           text_shape 100 ["  Title"; ""; "line 2 "]] None.

(** The namespace relationship parts are written in. *)
Definition ns_package : string :=
  "http://schemas.openxmlformats.org/package/2006/relationships".

(** A relationship part as the packaging format has it. *)
Definition package_rels (targets : list string) : part :=
  Xml (el (qname ns_package "Relationships")
          (map (fun t => mkElement (qname ns_package "Relationship")
                           {["Target" := t]} None [])
               targets)).

(** The package [commented], with its relationship part of slide 1 in the
    namespace of the format. *)
Definition conformant : pptx_file :=
  Package deck
    (<[rel_file_path 1 := package_rels ["../comments/comment1.xml"]]>
       (<["ppt/comments/comment1.xml" := cmLst alice_bob]> ∅)).

End Sample.

(** ** The extraction on what python-pptx can really hand over

    Above, a shape has a position and a notes slide has a text frame.
    python-pptx promises neither: [shape.top] is [None] for a shape without
    position, [notes_slide.notes_text_frame] is [None] for a notes slide
    without notes placeholder, and [Presentation] also loads a directory that
    holds an unpacked package.  Here the same lines run on such input. *)

Module Pptx.

Record ShapeObject : Type := mkShapeObject {
  sp_has_text_frame : bool;
  sp_top : option Z;
  sp_paragraphs : list string
}.

Inductive NotesSlide : Type :=
| no_notes_slide                       (* [has_notes_slide] is false *)
| notes_without_text_frame             (* [notes_text_frame] is [None] *)
| notes_text_frame (text : string).

Record SlideObject : Type := mkSlideObject {
  sl_shapes : list ShapeObject;
  sl_notes : NotesSlide
}.

(** The file at the given path: one the loader rejects (a corrupt ZIP, a
    file of another type), a directory with an unpacked package, or a ZIP
    package. *)
Inductive input : Type :=
| rejected
| directory (sl : list SlideObject)
| zip (sl : list SlideObject) (zf : gmap string part).

(** [Presentation(pptx_file)], line 61 *)
Definition Presentation (f : input) : outcome (list SlideObject) :=
  match f with
  | rejected => Raise FormatError
  | directory sl | zip sl _ => Ok sl
  end.

(** [zipfile.ZipFile(pptx_file, 'r')], line 67 *)
Definition ZipFile (f : input) : outcome (gmap string part) :=
  match f with
  | rejected => Raise BadZipFile
  | directory _ => Raise IsADirectoryError
  | zip _ zf => Ok zf
  end.

(** The shape with its position; 0 stands in where there is none, which is
    never looked at (see [sorted_text_shapes]). *)
Definition located (s : ShapeObject) : Shape :=
  mkShape (sp_has_text_frame s) (default 0%Z (sp_top s)) (sp_paragraphs s).

Definition no_top (s : ShapeObject) : bool :=
  match sp_top s with
  | None => true
  | Some _ => false
  end.

(** Line 89.  Sorting two or more keys compares every key with another
    one, and a comparison with [None] raises [TypeError]; a list of fewer
    than two is returned without any comparison. *)
Definition sorted_text_shapes (shapes : list ShapeObject)
  : outcome (list Shape) :=
  let with_text := filter (fun s => sp_has_text_frame s = true) shapes in
  if Nat.leb 2 (length with_text) && existsb no_top with_text
  then Raise TypeError
  else Ok (sorted top (map located with_text)).

(** Lines 89-103, as far as they can raise: the slide as the lines above
    read it. *)
Definition read_slide (slide : SlideObject) : outcome Slide :=
  match sorted_text_shapes (sl_shapes slide) with
  | Raise e => Raise e
  | Ok _ =>
      match sl_notes slide with
      | notes_without_text_frame => Raise (AttributeError "text")
      | no_notes_slide => Ok (mkSlide (map located (sl_shapes slide)) None)
      | notes_text_frame t =>
          Ok (mkSlide (map located (sl_shapes slide)) (Some t))
      end
  end.

(** Lines 89-105 *)
Definition slide_text_of (slide : SlideObject) : outcome string :=
  match read_slide slide with
  | Raise e => Raise e
  | Ok s => Ok (slide_body_text s)
  end.

(** Lines 87-107: the loop stops at the first slide that raises. *)
Fixpoint build_records (all_comments : gmap nat (list string)) (i : nat)
    (sl : list SlideObject) (extracted_data : list SlideRecord)
  : outcome (list SlideRecord) :=
  match sl with
  | [] => Ok extracted_data
  | slide :: sl' =>
      match slide_text_of slide with
      | Raise e => Raise e
      | Ok text =>
          build_records all_comments (S i) sl'
            (extracted_data
               ++ [mkRecord (i + 1) text (default [] (all_comments !! (i + 1)))])
      end
  end.

(** Lines 64-85 *)
Definition collect_comments (f : input) (n : nat) (include_comments : bool)
  : gmap nat (list string) * list warning :=
  if include_comments then
    match (let! zf := lift (ZipFile f) in
           for_each (range1 n) (scan_slide zf)) ∅ with
    | (Ok _, all_comments) => (all_comments, [])
    | (Raise e, all_comments) => (all_comments, [CouldNotExtractComments e])
    end
  else (∅, []).

(** Lines 56-109 *)
Definition extract_text_from_pptx (f : input) (include_comments : bool)
  : outcome (list SlideRecord) * list warning :=
  match Presentation f with
  | Raise e => (Raise e, [])
  | Ok sl =>
      let '(all_comments, stderr) :=
        collect_comments f (length sl) include_comments in
      (build_records all_comments 0 sl [], stderr)
  end.

(** A slide on which lines 89-103 raise nothing: at most one shape with a
    text frame or a position for each of them, and a text frame on the notes
    slide if there is one. *)
Definition well_formed_slide (slide : SlideObject) : bool :=
  let with_text :=
    filter (fun s => sp_has_text_frame s = true) (sl_shapes slide) in
  negb (Nat.leb 2 (length with_text) && existsb no_top with_text)
  && match sl_notes slide with
     | notes_without_text_frame => false
     | _ => true
     end.


Definition slides_of (f : input) : list SlideObject :=
  match f with
  | rejected => []
  | directory sl | zip sl _ => sl
  end.

(** A shape and a slide of the model above, as objects. *)
Definition of_shape (s : Shape) : ShapeObject :=
  mkShapeObject (has_text_frame s) (Some (top s)) (paragraphs s).
Definition of_slide (s : Slide) : SlideObject :=
  mkSlideObject (map of_shape (shapes s))
    match notes_slide s with
    | None => no_notes_slide
    | Some t => notes_text_frame t
    end.

End Pptx.

Module SampleObjects.

(** One slide with two text shapes, one of them without position. *)
Definition unplaced_slide : Pptx.SlideObject :=
  Pptx.mkSlideObject
    [Pptx.mkShapeObject true (Some 100%Z) ["Title"];
     Pptx.mkShapeObject true None ["Subtitle"]] Pptx.no_notes_slide.

(** The slides of the sample deck, as objects. *)
Definition objects : list Pptx.SlideObject :=
  map Pptx.of_slide (slides Sample.deck).

End SampleObjects.

(** ** The renderers (lines 111-179) *)

(** [bool(l)] for a list: the empty list is falsy. *)
Definition truthy_list {A} (l : list A) : bool :=
  match l with
  | [] => false
  | _ :: _ => true
  end.

(** [f"Slide {slide_number}"] *)
Definition slide_title (n : nat) : string := "Slide " +:+ pretty n.

(** Lines 111-123: [generate_markdown_string_for_pandoc], with the
    accumulator [md_content] threaded through both loops. *)
Definition generate_markdown_string_for_pandoc (data : list SlideRecord)
  : string :=
  fold_left
    (fun md_content r =>
       let md_content :=
         md_content +:+ ("## Slide " +:+ pretty (slide_number r) +:+ LF +:+ LF) in
       let md_content := md_content +:+ (slide_text r +:+ LF +:+ LF) in
       let md_content :=
         if truthy_list (comments r) then
           let md_content := md_content +:+ ("### Comments" +:+ LF +:+ LF) in
           let md_content :=
             fold_left (fun md_content comment =>
                          md_content +:+ ("* " +:+ comment +:+ LF))
                       (comments r) md_content in
           md_content +:+ LF
         else md_content in
       md_content +:+ ("---" +:+ LF +:+ LF))
    data EmptyString.

(** What python-docx is asked to put into the document. *)
Inductive docx_block : Type :=
| DocxHeading (text : string) (level : nat)
| DocxParagraph (text : string) (style : option string).

Definition docx_text (b : docx_block) : string :=
  match b with
  | DocxHeading t _ | DocxParagraph t _ => t
  end.

(** What lxml, through which python-docx writes, takes as text: no control
    character, that is no code point below 32 but TAB, LF and CR. *)
Definition xml_compatible_char (c : ascii) : bool :=
  let n := nat_of_ascii c in
  Nat.leb 32 n || Nat.eqb n 9 || Nat.eqb n 10 || Nat.eqb n 13.

Fixpoint xml_compatible (s : string) : bool :=
  match s with
  | EmptyString => true
  | String c s' => xml_compatible_char c && xml_compatible s'
  end.

(** [doc.add_heading(text, level)] and [doc.add_paragraph(text, style)] on
    the document so far: [ValueError] for a text lxml does not take. *)
Definition docx_add (doc : outcome (list docx_block)) (b : docx_block)
  : outcome (list docx_block) :=
  match doc with
  | Raise e => Raise e
  | Ok blocks =>
      if xml_compatible (docx_text b) then Ok (blocks ++ [b])
      else Raise ValueError
  end.

(** Lines 146-157: [save_as_docx_native]; the result is the file written
    and the blocks of the document saved there, or the exception of the
    call that failed. *)
Definition save_as_docx_native (data : list SlideRecord) (output_file : string)
  : outcome (string * list docx_block) :=
  let doc := docx_add (Ok []) (DocxHeading "Presentation Content" 0) in
  let doc :=
    fold_left
      (fun doc r =>
         let doc := docx_add doc (DocxHeading (slide_title (slide_number r)) 1) in
         let doc := docx_add doc (DocxParagraph (slide_text r) None) in
         if truthy_list (comments r) then
           let doc := docx_add doc (DocxHeading "Comments" 2) in
           fold_left (fun doc comment =>
                        docx_add doc
                          (DocxParagraph comment (Some "List Bullet")))
                     (comments r) doc
         else doc)
      data doc in
  match doc with
  | Ok blocks => Ok (output_file, blocks)
  | Raise e => Raise e
  end.

(** [TextStyle(bold=..., size=...)] and [ParagraphStyle(...)] of PyRTF3,
    as far as the source sets them. *)
Module PyRTF3.

Record TextStyle : Type := mkTextStyle {
  bold : bool;
  size : nat
}.

Record ParagraphStyle : Type := mkParagraphStyle {
  text_style : option TextStyle;
  spacing_before : option nat;
  spacing_after : option nat
}.

End PyRTF3.

(** [Paragraph(text)] and [Paragraph(text, style)] *)
Inductive rtf_paragraph : Type :=
  RtfParagraph (text : string) (style : option PyRTF3.ParagraphStyle).

Definition rtf_h1 : PyRTF3.ParagraphStyle :=
  PyRTF3.mkParagraphStyle (Some (PyRTF3.mkTextStyle true 32)) None (Some 240).
Definition rtf_h2 : PyRTF3.ParagraphStyle :=
  PyRTF3.mkParagraphStyle (Some (PyRTF3.mkTextStyle true 24))
    (Some 120) (Some 120).
Definition rtf_rule : PyRTF3.ParagraphStyle :=
  PyRTF3.mkParagraphStyle None (Some 480) (Some 480).

(** Lines 160-179: [save_as_rtf_native]; the result is the file written and
    the paragraphs of the one section of the document. *)
Definition save_as_rtf_native (data : list SlideRecord) (output_file : string)
  : string * list rtf_paragraph :=
  let section :=
    fold_left
      (fun section r =>
         let section :=
           section ++ [RtfParagraph (slide_title (slide_number r)) (Some rtf_h1)] in
         let section := section ++ [RtfParagraph (slide_text r) None] in
         let section :=
           if truthy_list (comments r) then
             let section :=
               section ++ [RtfParagraph "Comments" (Some rtf_h2)] in
             fold_left (fun section comment =>
                          section ++ [RtfParagraph ("- " +:+ comment) None])
                       (comments r) section
           else section in
         section ++ [RtfParagraph "---" (Some rtf_rule)])
      data [] in
  (output_file, section).

(** [s.replace('.md', '')]: every occurrence found in one pass from the
    left is dropped. *)
Fixpoint remove_dot_md (s : string) : string :=
  match s with
  | EmptyString => EmptyString
  | String c s' =>
      match s' with
      | String c1 (String c2 rest) =>
          if Ascii.eqb c "." && Ascii.eqb c1 "m" && Ascii.eqb c2 "d"
          then remove_dot_md rest
          else String c (remove_dot_md s')
      | _ => String c (remove_dot_md s')
      end
  end.

(** What mdutils is asked to do. *)
Inductive md_call : Type :=
| new_header (level : nat) (title : string)
| new_paragraph (text : string) (wrap_width : Z)
| new_list (items : list string)
| new_line (text : string).

Record MdUtils : Type := mkMdUtils {
  file_name : string;
  title : string;
  calls : list md_call
}.

(** Lines 130-144: [save_as_markdown_native]; the result is the [MdUtils]
    object on which [create_md_file] is called. *)
Definition save_as_markdown_native (data : list SlideRecord)
    (output_file : string) (wrap_width : Z) : MdUtils :=
  let md_file :=
    fold_left
      (fun md_file r =>
         let md_file :=
           md_file ++ [new_header 1 (slide_title (slide_number r))] in
         let md_file := md_file ++ [new_paragraph (slide_text r) wrap_width] in
         let md_file :=
           if truthy_list (comments r) then
             let md_file := md_file ++ [new_header 2 "Comments"] in
             md_file ++ [new_list (comments r)]
           else md_file in
         md_file ++ [new_line "---"])
      data [] in
  mkMdUtils (remove_dot_md output_file) "Presentation Content" md_file.

(** ** The command line (lines 182-255) *)

(** [os.path.splitext] (POSIX), after CPython's [genericpath._splitext]. *)
Module OsPath.

(** [s.rfind(c)]: the index of the last [c], or -1. *)
Fixpoint rfind (c : ascii) (s : string) : Z :=
  match s with
  | EmptyString => (-1)%Z
  | String a s' =>
      let r := rfind c s' in
      if (0 <=? r)%Z then (r + 1)%Z
      else if Ascii.eqb a c then 0%Z else (-1)%Z
  end.

(** [s[i:j]] for [0 <= i <= j]. *)
Definition slice (s : string) (i j : nat) : string :=
  String.substring i (j - i) s.

(** [any(ch != '.' for ch in s)] *)
Fixpoint any_not_dot (s : string) : bool :=
  match s with
  | EmptyString => false
  | String ch s' => negb (Ascii.eqb ch ".") || any_not_dot s'
  end.

Definition splitext (p : string) : string * string :=
  let sepIndex := rfind "/" p in
  let dotIndex := rfind "." p in
  if (sepIndex <? dotIndex)%Z then
    (* the loop over [filenameIndex]: skip all leading dots *)
    if any_not_dot (slice p (Z.to_nat (sepIndex + 1)) (Z.to_nat dotIndex))
    then (slice p 0 (Z.to_nat dotIndex),
          slice p (Z.to_nat dotIndex) (String.length p))
    else (p, EmptyString)
  else (p, EmptyString).

End OsPath.

(** The choices of the positional [output_format] and of [--output-lib]. *)
Inductive output_format : Type := fmt_docx | fmt_md | fmt_rtf.
Inductive output_lib : Type := lib_auto | lib_pandoc | lib_native.

(** The string a choice is written as. *)
Definition format_name (f : output_format) : string :=
  match f with
  | fmt_docx => "docx"
  | fmt_md => "md"
  | fmt_rtf => "rtf"
  end.

(** The parsed arguments [args]. *)
Record Namespace : Type := mkNamespace {
  input_file : string;
  arg_output_format : output_format;
  no_comments : bool;
  arg_output_lib : output_lib;
  wrap_text : Z
}.

(** The flags set by the imports of lines 10-44. *)
Record Installed : Type := mkInstalled {
  HAS_PANDOC : bool;
  HAS_DOCX : bool;
  HAS_MDUTILS : bool;
  HAS_RTF3 : bool;
  HAS_PPTX : bool
}.

(** The file system: which paths exist, and what is found there. *)
Record FileSystem : Type := mkFileSystem {
  path_exists : string -> bool;
  file_at : string -> pptx_file
}.

(** The writer [main] ends with, and what it is given. *)
Inductive writer_call : Type :=
| save_with_pandoc (md_string output_file : string) (fmt : output_format)
| create_md_file (md_file : MdUtils)
| docx_save (saved : string * list docx_block)
| rtf_write (saved : string * list rtf_paragraph).

Inductive exit_message : Type :=
| python_pptx_not_installed
| input_file_not_found (path : string)
| pypandoc_not_installed
| writer_library_missing (f : output_format).

(** How a run of [main] ends: [sys.exit(1)] after a message, an exception
    nobody catches, or a writer called. *)
Inductive main_result : Type :=
| SysExit (code : nat) (message : exit_message)
| Uncaught (e : exn)
| Saved (w : writer_call).

(** [f"{base_name}.{args.output_format}"], lines 213-214. *)
Definition output_file_of (args : Namespace) : string :=
  let base_name := (OsPath.splitext (input_file args)).1 in
  base_name +:+ "." +:+ format_name (arg_output_format args).

(** Line 222 *)
Definition use_pandoc (has : Installed) (args : Namespace) : bool :=
  match arg_output_lib args with
  | lib_auto => HAS_PANDOC has
  | lib_pandoc => true
  | lib_native => false
  end.

(** Lines 224-255: the choice of the writer, once the data is there. *)
Definition save (has : Installed) (args : Namespace)
    (extracted_data : list SlideRecord) : main_result :=
  let output_file := output_file_of args in
  let is_md := match arg_output_format args with fmt_md => true | _ => false end in
  if use_pandoc has args && negb is_md then
    if negb (HAS_PANDOC has) then SysExit 1 pypandoc_not_installed
    else
      let markdown_content :=
        generate_markdown_string_for_pandoc extracted_data in
      Saved (save_with_pandoc markdown_content output_file
               (arg_output_format args))
  else
    match arg_output_format args with
    | fmt_md =>
        if HAS_MDUTILS has then
          Saved (create_md_file
                   (save_as_markdown_native extracted_data output_file
                      (wrap_text args)))
        else SysExit 1 (writer_library_missing fmt_md)
    | fmt_docx =>
        if HAS_DOCX has then
          match save_as_docx_native extracted_data output_file with
          | Ok saved => Saved (docx_save saved)
          | Raise e => Uncaught e
          end
        else SysExit 1 (writer_library_missing fmt_docx)
    | fmt_rtf =>
        if HAS_RTF3 has then
          Saved (rtf_write (save_as_rtf_native extracted_data output_file))
        else SysExit 1 (writer_library_missing fmt_rtf)
    end.

(** Lines 182-255: [main] on parsed arguments; with the result come the
    warnings of the extraction. *)
Definition main (has : Installed) (fs : FileSystem) (args : Namespace)
  : main_result * list warning :=
  if negb (HAS_PPTX has) then (SysExit 1 python_pptx_not_installed, [])
  else if negb (path_exists fs (input_file args)) then
    (SysExit 1 (input_file_not_found (input_file args)), [])
  else
    match extract_text_from_pptx (file_at fs (input_file args))
            (negb (no_comments args)) with
    | (Raise e, stderr) => (Uncaught e, stderr)
    | (Ok extracted_data, stderr) => (save has args extracted_data, stderr)
    end.

(** ** The renderers, read as list functions *)



(** What [save_as_rtf_native] appends to the section for one record. *)
Definition rtf_slide (r : SlideRecord) : list rtf_paragraph :=
  [RtfParagraph (slide_title (slide_number r)) (Some rtf_h1);
   RtfParagraph (slide_text r) None]
  ++ match comments r with
     | [] => []
     | cs => RtfParagraph "Comments" (Some rtf_h2)
             :: map (fun c => RtfParagraph ("- " +:+ c) None) cs
     end
  ++ [RtfParagraph "---" (Some rtf_rule)].

(** The bullet lines [generate_markdown_string_for_pandoc] writes for the
    comments of one record. *)
Definition markdown_bullets (cs : list string) : string :=
  fold_left (fun md_content comment => md_content +:+ ("* " +:+ comment +:+ LF))
            cs EmptyString.

(** A record with its comments taken away. *)
Definition without_comments (r : SlideRecord) : SlideRecord :=
  mkRecord (slide_number r) (slide_text r) [].

(** The arguments with [--no-comments] set or not. *)
Definition set_no_comments (args : Namespace) (flag : bool) : Namespace :=
  mkNamespace (input_file args) (arg_output_format args) flag
              (arg_output_lib args) (wrap_text args).

(** The arguments with another [--output-lib] and another [--wrap-text]. *)
Definition set_output_lib (args : Namespace) (l : output_lib) : Namespace :=
  mkNamespace (input_file args) (arg_output_format args) (no_comments args)
              l (wrap_text args).
Definition set_wrap_text (args : Namespace) (w : Z) : Namespace :=
  mkNamespace (input_file args) (arg_output_format args) (no_comments args)
              (arg_output_lib args) w.

(** The installed libraries with another [HAS_PANDOC]. *)
Definition set_HAS_PANDOC (has : Installed) (b : bool) : Installed :=
  mkInstalled b (HAS_DOCX has) (HAS_MDUTILS has) (HAS_RTF3 has) (HAS_PPTX has).





(** ** A sample environment *)

Module SampleRun.

(** [deck.pptx] is the sample package with comments; [notes.txt] exists
    and is no package. *)
Definition fs : FileSystem :=
  mkFileSystem
    (fun path => String.eqb path "deck.pptx" || String.eqb path "notes.txt")
    (fun path => if String.eqb path "deck.pptx" then Sample.commented
                 else NotAPackage).

Definition everything : Installed := mkInstalled true true true true true.
Definition no_pandoc : Installed := mkInstalled false true true true true.

Definition args (path : string) (f : output_format) (l : output_lib)
  : Namespace := mkNamespace path f false l 0.

End SampleRun.

(** * Properties *)

(** ** Strings *)

Section strings.





Lemma rstrip_nonspace_head c s :
  isspace c = false -> rstrip (String c s) <> EmptyString.
Proof. simpl. intros ->. now destruct (rstrip s). Qed.

(** Stripping leaves nothing exactly when every character is blank. *)
Lemma strip_truthy s : truthy (strip s) = negb (all_space s).
Proof.
  unfold strip. induction s as [|c s IH]; [reflexivity|].
  simpl lstrip. simpl all_space. destruct (isspace c) eqn:Hc; [exact IH|].
  simpl negb. pose proof (rstrip_nonspace_head c s Hc) as Hne.
  now destruct (rstrip (String c s)).
Qed.

End strings.

(** ** The stable sort *)

Section sorted_by_key.

Context {A : Type} (key : A -> Z).

Local Abbreviation key_le := (key_le key).

Lemma insert_by_perm x l : insert_by key x l ≡ₚ x :: l.
Proof.
  induction l as [|y l IH]; simpl; [reflexivity|].
  destruct (key x <=? key y)%Z; [reflexivity|].
  rewrite IH. apply perm_swap.
Qed.

Lemma sorted_perm l : sorted key l ≡ₚ l.
Proof.
  induction l as [|x l IH]; simpl; [reflexivity|].
  now rewrite insert_by_perm, IH.
Qed.

Lemma insert_by_sorted x l :
  StronglySorted key_le l -> StronglySorted key_le (insert_by key x l).
Proof.
  induction 1 as [|y l Hl IH Hy]; simpl.
  - repeat constructor.
  - destruct (key x <=? key y)%Z eqn:Hxy.
    + apply Z.leb_le in Hxy. constructor; [now constructor|].
      constructor; [exact Hxy|].
      eapply Forall_impl; [exact Hy|]. unfold key_le. simpl. lia.
    + apply Z.leb_gt in Hxy. constructor; [exact IH|].
      rewrite insert_by_perm. constructor; [unfold key_le; lia|exact Hy].
Qed.

Lemma sorted_sorted l : StronglySorted key_le (sorted key l).
Proof.
  induction l as [|x l IH]; simpl; [constructor|].
  now apply insert_by_sorted.
Qed.

(** The elements of one key keep their relative order. *)
Lemma insert_by_stable k x l :
  filter (fun a => key a = k) (insert_by key x l)
  = filter (fun a => key a = k) (x :: l).
Proof.
  induction l as [|y l IH]; simpl; [reflexivity|].
  destruct (key x <=? key y)%Z eqn:Hxy; [reflexivity|].
  apply Z.leb_gt in Hxy.
  rewrite (filter_cons _ y), IH, !filter_cons.
  repeat case_decide; try reflexivity; lia.
Qed.

Lemma sorted_stable k l :
  filter (fun a => key a = k) (sorted key l)
  = filter (fun a => key a = k) l.
Proof.
  induction l as [|x l IH]; simpl; [reflexivity|].
  rewrite insert_by_stable, !filter_cons, IH. reflexivity.
Qed.

Lemma sorted_keys_sorted l : StronglySorted Z.le (key <$> sorted key l).
Proof.
  apply (StronglySorted_fmap key key_le Z.le); [|apply sorted_sorted].
  intros a b Hab. exact Hab.
Qed.

(** The keys of the result depend on the keys of the input only. *)
Lemma sorted_keys_perm l1 l2 :
  l1 ≡ₚ l2 -> key <$> sorted key l1 = key <$> sorted key l2.
Proof.
  intros Hp. apply (StronglySorted_unique Z.le); try apply sorted_keys_sorted.
  now rewrite !sorted_perm, Hp.
Qed.

Lemma NoDup_fmap_eq (l : list A) x y :
  NoDup (key <$> l) -> x ∈ l -> y ∈ l -> key x = key y -> x = y.
Proof.
  induction l as [|a l IH]; csimpl; intros Hnd Hx Hy Hk.
  - inversion Hx.
  - apply NoDup_cons in Hnd as [Hna Hnd].
    apply elem_of_cons in Hx as [->|Hx]; apply elem_of_cons in Hy as [->|Hy];
      auto.
    + exfalso. apply Hna. rewrite Hk. now apply list_elem_of_fmap_2.
    + exfalso. apply Hna. rewrite <- Hk. now apply list_elem_of_fmap_2.
Qed.

(** Without ties, the result depends on the set of elements only. *)
Lemma sorted_perm_nodup l1 l2 :
  l1 ≡ₚ l2 -> NoDup (key <$> l1) -> sorted key l1 = sorted key l2.
Proof.
  intros Hp Hnd.
  apply (StronglySorted_unique_strong key_le); try apply sorted_sorted.
  - intros x1 x2 H1 H2 H12 H21. apply (NoDup_fmap_eq l1); auto.
    + now rewrite <- (sorted_perm l1).
    + now rewrite Hp, <- (sorted_perm l2).
    + unfold key_le in *. lia.
  - now rewrite !sorted_perm.
Qed.

End sorted_by_key.

(** ** The loops of the slide text, as list functions *)

Lemma shape_text_filter shape :
  shape_text shape = filter (fun p => truthy p = true) (paragraphs shape).
Proof.
  unfold shape_text.
  enough (forall ps acc,
    fold_left (fun acc p => if truthy p then acc ++ [p] else acc) ps acc
    = acc ++ filter (fun p => truthy p = true) ps) as H by apply (H _ []).
  induction ps as [|p ps IH]; intros acc; simpl.
  - now rewrite app_nil_r.
  - rewrite IH, filter_cons. destruct (truthy p) eqn:Hp.
    + rewrite decide_True by reflexivity. now rewrite <- app_assoc.
    + rewrite decide_False by discriminate. reflexivity.
Qed.

Lemma shape_parts_map l :
  shape_parts l = map (fun s => join line_break (shape_text s)) l.
Proof.
  unfold shape_parts.
  enough (forall l acc,
    fold_left (fun parts s => parts ++ [join line_break (shape_text s)]) l acc
    = acc ++ map (fun s => join line_break (shape_text s)) l)
    as H by apply (H _ []).
  clear l. induction l as [|x l IH]; intros acc; simpl.
  - now rewrite app_nil_r.
  - now rewrite IH, <- app_assoc.
Qed.

Lemma add_notes_app slide parts :
  add_notes slide parts = parts ++ Spec.notes_part slide.
Proof.
  unfold add_notes, Spec.notes_part. destruct (notes_slide slide) as [t|].
  - rewrite strip_truthy. destruct (all_space t); simpl;
      [now rewrite app_nil_r | reflexivity].
  - now rewrite app_nil_r.
Qed.

Lemma slide_body_text_spec slide :
  slide_body_text slide = Spec.body_text slide.
Proof.
  unfold slide_body_text, Spec.body_text.
  rewrite add_notes_app, shape_parts_map. do 4 f_equal.
  apply map_ext. intros s. unfold Spec.shape_text.
  now rewrite shape_text_filter.
Qed.

Lemma build_records_spec all_comments sl :
  forall i acc,
    build_records all_comments i sl acc
    = acc ++ imap (fun k slide =>
                     mkRecord (i + k + 1) (slide_body_text slide)
                       (default [] (all_comments !! (i + k + 1)))) sl.
Proof.
  induction sl as [|slide sl IH]; intros i acc; simpl.
  - now rewrite app_nil_r.
  - rewrite IH, <- app_assoc. simpl. rewrite Nat.add_0_r. do 2 f_equal.
    apply imap_ext. intros k x _. simpl.
    now replace (S (i + k + 1)) with (i + S k + 1) by lia.
Qed.

Lemma build_records_records all_comments sl :
  build_records all_comments 0 sl [] = Spec.records all_comments sl.
Proof. now rewrite build_records_spec. Qed.

Lemma records_numbers all_comments sl :
  slide_number <$> Spec.records all_comments sl = seq 1 (length sl).
Proof.
  unfold Spec.records. rewrite fmap_imap.
  rewrite (imap_ext _ (fun j _ => S j)) by (intros; simpl; lia).
  now rewrite (imap_seq_0 sl S), fmap_S_seq.
Qed.

Lemma records_lookup all_comments sl i :
  Spec.records all_comments sl !! i
  = (fun slide => mkRecord (i + 1) (slide_body_text slide)
                    (default [] (all_comments !! (i + 1)))) <$> sl !! i.
Proof. unfold Spec.records. now rewrite list_lookup_imap. Qed.

Lemma records_texts all_comments sl :
  slide_text <$> Spec.records all_comments sl = slide_body_text <$> sl.
Proof.
  unfold Spec.records. rewrite fmap_imap.
  rewrite (imap_ext _ (const slide_body_text)) by reflexivity.
  apply imap_const.
Qed.

(** What a run on a package returns, in one equation. *)
Lemma extract_package prs zf include_comments :
  extract_text_from_pptx (Package prs zf) include_comments
  = (Ok (Spec.records
           (collect_comments (Package prs zf) prs include_comments).1
           (slides prs)),
     (collect_comments (Package prs zf) prs include_comments).2).
Proof.
  unfold extract_text_from_pptx. simpl.
  destruct (collect_comments _ _ _) as [m w]. simpl.
  now rewrite build_records_records.
Qed.

(** ** Reading order *)

(** C1. The shapes that make up the body text of a slide are the shapes
    with a text frame, each as often as it occurs; they come sorted by [top],
    and the shapes of one [top] keep their document order.  For two
    document orders of the same shapes the sequence of positions in the
    result is the same, and when no two text shapes share a position the
    result itself is the same. *)
Theorem C1_reading_order (slide : Slide) :
  text_shapes slide
    ≡ₚ filter (fun s => has_text_frame s = true) (shapes slide)
  /\ StronglySorted (key_le top) (text_shapes slide)
  /\ (forall k : Z,
        filter (fun s => top s = k) (text_shapes slide)
        = filter (fun s => top s = k)
            (filter (fun s => has_text_frame s = true) (shapes slide)))
  /\ (forall slide' : Slide,
        shapes slide ≡ₚ shapes slide' ->
        top <$> text_shapes slide = top <$> text_shapes slide'
        /\ (NoDup (top <$> filter (fun s => has_text_frame s = true)
                            (shapes slide)) ->
            text_shapes slide = text_shapes slide')).
Proof.
  unfold text_shapes. repeat split.
  - apply sorted_perm.
  - apply sorted_sorted.
  - intros k. apply sorted_stable.
  - apply sorted_keys_perm. now apply filter_Permutation.
  - intros Hnd. apply sorted_perm_nodup; [|exact Hnd].
    now apply filter_Permutation.
Qed.

Lemma C1_reading_order_witness :
  shapes Sample.title_slide_rev ≡ₚ shapes Sample.title_slide
  /\ text_shapes Sample.title_slide_rev = text_shapes Sample.title_slide.
Proof.
  assert (Hp : shapes Sample.title_slide_rev ≡ₚ shapes Sample.title_slide)
    by apply perm_swap.
  split; [exact Hp|].
  destruct (C1_reading_order Sample.title_slide_rev) as (_ & _ & _ & H).
  destruct (H Sample.title_slide Hp) as [_ Heq].
  apply Heq. apply (bool_decide_unpack _). vm_compute. exact I.
Defined.

(** ** Slide records *)

(** A run on a package returns one record per slide, in slide order:
    the record at index [i] carries the text of the slide at index [i], and
    the slide numbers are 1, 2, ..., N for N slides. *)
Lemma package_one_record_per_slide (prs : presentation) (zf : gmap string part)
    (include_comments : bool) :
  exists records : list SlideRecord,
    (extract_text_from_pptx (Package prs zf) include_comments).1 = Ok records
    /\ length records = length (slides prs)
    /\ slide_number <$> records = seq 1 (length (slides prs))
    /\ slide_text <$> records = slide_body_text <$> slides prs.
Proof.
  rewrite extract_package. eexists. split; [reflexivity|].
  split; [apply length_imap|].
  split; [apply records_numbers | apply records_texts].
Qed.

(** ** Body text *)

(** The body text of a slide is the joined, filtered and trimmed text
    the specification describes: non-empty paragraphs joined by the
    line-break marker within a shape, non-empty shape texts joined by a blank
    line, the whole trimmed.  "Title" above "Subtitle" gives "Title", a blank
    line, "Subtitle", whichever shape was created first. *)
Lemma body_text_equation (slide : Slide) :
  slide_body_text slide
  = strip (join blank_line
             (filter (fun t => truthy t = true)
                (map (fun shape =>
                        join line_break
                          (filter (fun p => truthy p = true)
                                  (paragraphs shape)))
                     (text_shapes slide)
                 ++ Spec.notes_part slide)))
  /\ slide_body_text Sample.title_slide = "Title" +:+ LF +:+ LF +:+ "Subtitle"
  /\ slide_body_text Sample.title_slide_rev
     = "Title" +:+ LF +:+ LF +:+ "Subtitle".
Proof.
  split; [apply slide_body_text_spec|]. split; reflexivity.
Qed.




(** ** Comments switched off *)

Lemma records_no_comments sl :
  Forall (fun r => comments r = []) (Spec.records ∅ sl).
Proof.
  apply Forall_lookup. intros i r. rewrite records_lookup.
  destruct (sl !! i); simpl; [|discriminate].
  intros [= <-]. simpl. now rewrite lookup_empty.
Qed.

(** C7. With comment inclusion switched off every record has the empty
    comment list, whatever parts the archive holds, nothing is printed on
    the side channel, and numbers and texts are those of a run with the
    inclusion switched on. *)
Theorem C7_comments_disabled (prs : presentation) (zf : gmap string part) :
  exists (off on : list SlideRecord) (stderr_on : list warning),
    extract_text_from_pptx (Package prs zf) false = (Ok off, [])
    /\ extract_text_from_pptx (Package prs zf) true = (Ok on, stderr_on)
    /\ Forall (fun r => comments r = []) off
    /\ slide_number <$> off = slide_number <$> on
    /\ slide_text <$> off = slide_text <$> on.
Proof.
  rewrite !extract_package. do 3 eexists.
  split; [reflexivity|]. split; [reflexivity|].
  split; [apply records_no_comments|].
  now rewrite !records_numbers, !records_texts.
Qed.

(** ** Files that are no package *)

(** When the loader rejects the file, the call raises the loader's
    exception: nothing is returned and nothing is printed as a warning, with
    comment inclusion on or off. *)
Lemma loader_error_propagates (pptx : pptx_file) (e : exn)
    (include_comments : bool) :
  Presentation pptx = Raise e ->
  extract_text_from_pptx pptx include_comments = (Raise e, []).
Proof.
  intros H. unfold extract_text_from_pptx. now rewrite H.
Qed.


(** ** The comment scan *)

Section comment_scan.

Implicit Types (m : gmap nat (list string)) (i k : nat).

Lemma for_each_app {A} (xs ys : list A) (body : A -> M unit) m :
  for_each (xs ++ ys) body m
  = bind (for_each xs body) (fun _ => for_each ys body) m.
Proof.
  revert m. induction xs as [|x xs IH]; intros m; simpl.
  - reflexivity.
  - unfold bind. destruct (body x m) as [[[]|e] m1]; [|reflexivity].
    rewrite IH. reflexivity.
Qed.

(** A loop fails where its first failing iteration fails. *)
Lemma for_each_raise_inv {A} (xs : list A) (body : A -> M unit) m e m' :
  for_each xs body m = (Raise e, m') ->
  exists pre x post m1,
    xs = pre ++ x :: post
    /\ for_each pre body m = (Ok tt, m1)
    /\ body x m1 = (Raise e, m').
Proof.
  revert m. induction xs as [|x xs IH]; intros m; simpl; [discriminate|].
  unfold bind. destruct (body x m) as [[[]|e1] m1] eqn:Hx.
  - intros (pre & y & post & m2 & -> & Hpre & Hy)%IH.
    exists (x :: pre), y, post, m2. repeat split; [|exact Hy].
    simpl. unfold bind. now rewrite Hx.
  - intros [= <- <-]. now exists [], x, xs, m.
Qed.

Lemma for_each_raise_at {A} (pre post : list A) x (body : A -> M unit)
    m m1 e m' :
  for_each pre body m = (Ok tt, m1) ->
  body x m1 = (Raise e, m') ->
  for_each (pre ++ x :: post) body m = (Raise e, m').
Proof.
  intros Hpre Hx. rewrite for_each_app. unfold bind at 1. rewrite Hpre.
  simpl. unfold bind. now rewrite Hx.
Qed.

(** *** Which keys a computation writes *)

Lemma touches_only_ret i : touches_only i (ret tt).
Proof. now intros m k _. Qed.

Lemma touches_only_lift {A} i (o : outcome A) (k : A -> M unit) :
  (forall a, touches_only i (k a)) -> touches_only i (bind (lift o) k).
Proof.
  intros Hk m j Hj. unfold bind, lift. destruct o; [now apply Hk|reflexivity].
Qed.

Lemma touches_only_bind i (c : M unit) (k : unit -> M unit) :
  touches_only i c -> (forall a, touches_only i (k a)) ->
  touches_only i (bind c k).
Proof.
  intros Hc Hk m j Hj. unfold bind. specialize (Hc m j Hj).
  destruct (c m) as [[a|e] m1]; simpl in *; [|exact Hc].
  now rewrite Hk.
Qed.

Lemma touches_only_for_each {A} i (xs : list A) (body : A -> M unit) :
  (forall x, touches_only i (body x)) -> touches_only i (for_each xs body).
Proof.
  intros Hb. induction xs as [|x xs IH]; simpl.
  - apply touches_only_ret.
  - apply touches_only_bind; auto.
Qed.

Lemma touches_only_setdefault i : touches_only i (setdefault i).
Proof.
  intros m k Hk. unfold setdefault, modify. simpl.
  destruct (m !! i); [reflexivity|]. now rewrite lookup_insert_ne.
Qed.

Lemma touches_only_append i s : touches_only i (append_comment i s).
Proof.
  intros m k Hk. unfold append_comment, modify. simpl.
  now rewrite lookup_insert_ne.
Qed.

Lemma touches_only_scan_nodes i cms :
  touches_only i (scan_comment_nodes i cms).
Proof.
  apply touches_only_for_each. intros c. apply touches_only_lift.
  intros p. apply touches_only_append.
Qed.

Lemma touches_only_scan_rel zf i rel : touches_only i (scan_rel zf i rel).
Proof.
  unfold scan_rel. destruct (ET.get rel "Target") as [t|]; [|now intros m k].
  destruct (contains "comments" t); [|apply touches_only_ret].
  destruct (zf !! comment_file_path t); [|apply touches_only_ret].
  apply touches_only_bind; [apply touches_only_setdefault|]. intros _.
  apply touches_only_lift. intros root. apply touches_only_scan_nodes.
Qed.

Lemma touches_only_scan_slide zf i : touches_only i (scan_slide zf i).
Proof.
  unfold scan_slide. destruct (zf !! rel_file_path i);
    [|apply touches_only_ret].
  apply touches_only_lift. intros root. apply touches_only_for_each.
  intros rel. apply touches_only_scan_rel.
Qed.

(** A loop over slide indices leaves the other slides' keys alone. *)
Lemma scan_slides_other zf (xs : list nat) m k :
  k ∉ xs -> (for_each xs (scan_slide zf) m).2 !! k = m !! k.
Proof.
  revert m. induction xs as [|x xs IH]; intros m Hk; simpl; [reflexivity|].
  apply not_elem_of_cons in Hk as [Hkx Hk].
  unfold bind. pose proof (touches_only_scan_slide zf x m k Hkx) as Hx.
  destruct (scan_slide zf x m) as [[[]|e] m1]; simpl in *; [|exact Hx].
  now rewrite IH.
Qed.

(** *** The loop over the comment nodes *)

Lemma comments_at_extend i new m :
  comments_at (extend i new m) i = comments_at m i ++ new.
Proof.
  unfold comments_at, extend. destruct new; [now rewrite app_nil_r|].
  now rewrite lookup_insert_eq.
Qed.

Lemma extend_other i new m k : k <> i -> extend i new m !! k = m !! k.
Proof.
  intros Hk. unfold extend. destruct new; [reflexivity|].
  now rewrite lookup_insert_ne.
Qed.

Lemma extend_cons i s new m :
  extend i new (<[i := default [] (m !! i) ++ [s]]> m) = extend i (s :: new) m.
Proof.
  unfold extend. destruct new as [|s' new]; [reflexivity|].
  rewrite lookup_insert_eq, insert_insert_eq. simpl.
  now rewrite <- app_assoc.
Qed.

(** The loop stops at the first node that cannot be read, and what it
    appended until then stays in [all_comments]. *)
Lemma scan_comment_nodes_prefix i cms m :
  scan_comment_nodes i cms m
  = (outcome_of (parse_prefix cms).2,
     extend i (format_pair <$> (parse_prefix cms).1) m).
Proof.
  revert m. induction cms as [|c cms IH]; intros m; [reflexivity|].
  unfold scan_comment_nodes in *. simpl.
  unfold bind at 1 2, lift. destruct (comment_author_text c) as [p|e].
  - unfold append_comment at 1, modify. rewrite IH. simpl.
    now rewrite extend_cons.
  - reflexivity.
Qed.

End comment_scan.

(** ** A scan that does not fail *)

Section scan_ok.

Implicit Types (m : gmap nat (list string)) (i k : nat).

Lemma parse_prefix_app a b :
  parse_prefix (a ++ b)
  = match (parse_prefix a).2 with
    | None => ((parse_prefix a).1 ++ (parse_prefix b).1, (parse_prefix b).2)
    | Some _ => parse_prefix a
    end.
Proof.
  induction a as [|c a IH]; simpl; [now destruct (parse_prefix b)|].
  destruct (comment_author_text c); simpl; [|reflexivity].
  rewrite IH. now destruct (parse_prefix a) as [l [e|]].
Qed.

Lemma parse_prefix_all cms :
  (parse_prefix cms).2 = None ->
  Forall2 (fun c p => comment_author_text c = Ok p) cms (parse_prefix cms).1.
Proof.
  induction cms as [|c cms IH]; simpl; [constructor|].
  destruct (comment_author_text c) eqn:Hc; simpl; [|discriminate].
  intros H. constructor; auto.
Qed.

(** A failing list of nodes splits into the nodes read, the node that
    fails and the nodes never looked at. *)
Lemma parse_prefix_split cms e :
  (parse_prefix cms).2 = Some e ->
  exists good bad rest,
    cms = good ++ bad :: rest
    /\ Forall2 (fun c p => comment_author_text c = Ok p)
               good (parse_prefix cms).1
    /\ comment_author_text bad = Raise e.
Proof.
  induction cms as [|c cms IH]; simpl; [discriminate|].
  destruct (comment_author_text c) as [p|e'] eqn:Hc; simpl.
  - intros (good & bad & rest & -> & Hgood & Hbad)%IH.
    exists (c :: good), bad, rest. repeat split; [|exact Hbad].
    now constructor.
  - intros [= ->]. exists [], c, cms. repeat split; [constructor|exact Hc].
Qed.

Lemma parse_prefix_outcome cms : node_outcome (outcome_of (parse_prefix cms).2).
Proof.
  induction cms as [|c cms IH]; simpl; [exact I|].
  unfold comment_author_text.
  destruct (find_desc tag_text c); [|exact I].
  destruct (find_desc_child tag_authorLst tag_author c); [exact IH|exact I].
Qed.

Lemma comments_at_setdefault i m :
  comments_at (setdefault i m).2 i = comments_at m i.
Proof.
  unfold comments_at, setdefault, modify. simpl.
  destruct (m !! i) eqn:Hi; [now rewrite Hi|]. now rewrite lookup_insert_eq.
Qed.

(** What one relationship entry does to the list of its slide, when it
    succeeds or fails on a comment node. *)
Lemma scan_rel_nodes zf i rel m o m' :
  scan_rel zf i rel m = (o, m') -> node_outcome o ->
  outcome_of (parse_prefix (Spec.rel_comment_nodes zf rel)).2 = o
  /\ comments_at m' i
     = comments_at m i
       ++ (format_pair <$> (parse_prefix (Spec.rel_comment_nodes zf rel)).1).
Proof.
  unfold scan_rel, Spec.rel_comment_nodes.
  destruct (ET.get rel "Target") as [t|]; [|now intros [= <- <-] []].
  destruct (contains "comments" t);
    [|intros [= <- <-] _; split; [reflexivity | now rewrite app_nil_r]].
  destruct (zf !! comment_file_path t) as [[|root]|]; simpl.
  - now intros [= <- <-] [].
  - unfold bind at 1. unfold setdefault at 1, modify.
    unfold bind, lift. simpl. rewrite scan_comment_nodes_prefix.
    intros [= <- <-] _. split; [reflexivity|].
    rewrite comments_at_extend. f_equal. apply comments_at_setdefault.
  - intros [= <- <-] _. split; [reflexivity | now rewrite app_nil_r].
Qed.

Lemma scan_rels_nodes zf i rels m o m' :
  for_each rels (scan_rel zf i) m = (o, m') -> node_outcome o ->
  outcome_of (parse_prefix (flat_map (Spec.rel_comment_nodes zf) rels)).2 = o
  /\ comments_at m' i
     = comments_at m i
       ++ (format_pair
             <$> (parse_prefix (flat_map (Spec.rel_comment_nodes zf) rels)).1).
Proof.
  revert m. induction rels as [|rel rels IH]; intros m; simpl.
  - intros [= <- <-] _. split; [reflexivity | now rewrite app_nil_r].
  - unfold bind. destruct (scan_rel zf i rel m) as [[[]|e] m1] eqn:Hrel.
    + intros Hrest Ho. apply scan_rel_nodes in Hrel as [Hnone Hat]; [|exact I].
      destruct (IH _ Hrest Ho) as [Hout' Hat'].
      rewrite parse_prefix_app.
      destruct (parse_prefix (Spec.rel_comment_nodes zf rel)) as [l1 [e1|]];
        [discriminate|]. simpl in *. split; [exact Hout'|].
      now rewrite Hat', Hat, fmap_app, app_assoc.
    + intros [= <- <-] Ho. apply scan_rel_nodes in Hrel as [Hout Hat]; [|exact Ho].
      rewrite parse_prefix_app.
      destruct (parse_prefix (Spec.rel_comment_nodes zf rel)) as [l1 [e1|]];
        [|discriminate]. auto.
Qed.

Lemma scan_slide_nodes zf i m o m' :
  scan_slide zf i m = (o, m') -> node_outcome o ->
  outcome_of (parse_prefix (Spec.slide_comment_nodes zf i)).2 = o
  /\ comments_at m' i
     = comments_at m i
       ++ (format_pair <$> (parse_prefix (Spec.slide_comment_nodes zf i)).1).
Proof.
  unfold scan_slide, Spec.slide_comment_nodes.
  destruct (zf !! rel_file_path i) as [[|root]|]; simpl.
  - now intros [= <- <-] [].
  - unfold bind, lift. simpl. apply scan_rels_nodes.
  - intros [= <- <-] _. split; [reflexivity | now rewrite app_nil_r].
Qed.

Lemma scan_slides_ok zf (xs : list nat) :
  NoDup xs ->
  forall m m',
    for_each xs (scan_slide zf) m = (Ok tt, m') ->
    forall i, i ∈ xs ->
      (parse_prefix (Spec.slide_comment_nodes zf i)).2 = None
      /\ comments_at m' i
         = comments_at m i
           ++ (format_pair
                 <$> (parse_prefix (Spec.slide_comment_nodes zf i)).1).
Proof.
  assert (Hnone : forall f : option exn, outcome_of f = Ok tt -> f = None)
    by (now intros [e|]).
  induction 1 as [|x xs Hx Hnd IH]; intros m m' Hrun i Hi.
  - inversion Hi.
  - simpl in Hrun. unfold bind in Hrun.
    destruct (scan_slide zf x m) as [[[]|e] m1] eqn:Hslide; [|discriminate].
    apply elem_of_cons in Hi as [->|Hi].
    + apply scan_slide_nodes in Hslide as [Hout Hat]; [|exact I].
      split; [now apply Hnone|].
      rewrite <- Hat. unfold comments_at. f_equal.
      pose proof (scan_slides_other zf xs m1 x Hx) as Hk.
      now rewrite Hrun in Hk.
    + destruct (IH _ _ Hrun i Hi) as [Hout Hat]. split; [exact Hout|].
      rewrite Hat. f_equal. unfold comments_at. f_equal.
      assert (i <> x) as Hne by (intros ->; contradiction).
      pose proof (touches_only_scan_slide zf x m i Hne) as Hk.
      now rewrite Hslide in Hk.
Qed.

(** *** Where a failing scan stops *)

Lemma seq_split_at (pre post : list nat) x s n :
  seq s n = pre ++ x :: post ->
  pre = seq s (length pre) /\ x = s + length pre.
Proof.
  revert s n. induction pre as [|p pre IH]; intros s n; simpl.
  - destruct n as [|n]; simpl; [discriminate|]. intros [= <- _].
    rewrite Nat.add_0_r. auto.
  - destruct n as [|n]; simpl; [discriminate|]. intros [= <- H].
    apply IH in H as (Hpre & ->). rewrite <- Hpre.
    split; [reflexivity|lia].
Qed.

Lemma scan_stops zf n e m :
  for_each (range1 n) (scan_slide zf) ∅ = (Raise e, m) ->
  exists j m_before,
    1 <= j <= n
    /\ for_each (range1 (j - 1)) (scan_slide zf) ∅ = (Ok tt, m_before)
    /\ scan_slide zf j m_before = (Raise e, m).
Proof.
  intros (pre & j & post & m1 & Hsplit & Hpre & Hj)%for_each_raise_inv.
  unfold range1 in *. pose proof (f_equal length Hsplit) as Hlen.
  rewrite length_seq, length_app in Hlen. simpl in Hlen.
  apply seq_split_at in Hsplit as (Hp & ->).
  exists (1 + length pre), m1. split; [lia|].
  replace (1 + length pre - 1) with (length pre) by lia.
  rewrite <- Hp. auto.
Qed.

Lemma scan_raise_at zf n j e m_before m_fail :
  1 <= j <= n ->
  for_each (range1 (j - 1)) (scan_slide zf) ∅ = (Ok tt, m_before) ->
  scan_slide zf j m_before = (Raise e, m_fail) ->
  for_each (range1 n) (scan_slide zf) ∅ = (Raise e, m_fail).
Proof.
  intros Hj Hpre Hfail. unfold range1 in *.
  replace n with ((j - 1) + S (n - j)) by lia.
  rewrite seq_app. replace (1 + (j - 1)) with j by lia.
  change (seq j (S (n - j))) with (j :: seq (S j) (n - j)).
  now apply (for_each_raise_at _ _ _ _ _ m_before).
Qed.

(** After a failure at slide [j], the keys above [j] are not there and
    the keys below [j] are as the earlier slides left them. *)
Lemma scan_fail_keys zf j e m_before m_fail :
  for_each (range1 (j - 1)) (scan_slide zf) ∅ = (Ok tt, m_before) ->
  scan_slide zf j m_before = (Raise e, m_fail) ->
  forall k, k <> j ->
    comments_at m_fail k
    = if (k <? j)%nat then comments_at m_before k else [].
Proof.
  intros Hpre Hfail k Hk. unfold comments_at.
  pose proof (touches_only_scan_slide zf j m_before k Hk) as Hj.
  rewrite Hfail in Hj. simpl in Hj. rewrite Hj.
  destruct (Nat.ltb_spec k j); [reflexivity|].
  pose proof (scan_slides_other zf (range1 (j - 1)) ∅ k) as Hother.
  rewrite Hpre in Hother. simpl in Hother. rewrite Hother.
  - now rewrite lookup_empty.
  - unfold range1. rewrite list_elem_of_In, in_seq. lia.
Qed.

End scan_ok.

(** ** The guarded scan inside a run *)

Section guarded_scan.

Variables (prs : presentation) (zf : gmap string part).

Lemma scan_comments_package m :
  scan_comments (Package prs zf) prs m
  = for_each (range1 (length (slides prs))) (scan_slide zf) m.
Proof. reflexivity. Qed.

(** The handler keeps [all_comments] as the scan left it. *)
Lemma collect_state :
  (collect_comments (Package prs zf) prs true).1
  = (scan_comments (Package prs zf) prs ∅).2.
Proof.
  unfold collect_comments.
  now destruct (scan_comments _ _ _) as [[[]|e] m].
Qed.

Lemma collect_raise e m :
  scan_comments (Package prs zf) prs ∅ = (Raise e, m) ->
  collect_comments (Package prs zf) prs true
  = (m, [CouldNotExtractComments e]).
Proof. intros H. unfold collect_comments. now rewrite H. Qed.

(** A slide the scan got through keeps its list to the end of the scan. *)
Lemma scan_keeps_earlier i m_i :
  i <= length (slides prs) ->
  for_each (range1 i) (scan_slide zf) ∅ = (Ok tt, m_i) ->
  comments_at (scan_comments (Package prs zf) prs ∅).2 i = comments_at m_i i.
Proof.
  intros Hi Hrun. rewrite scan_comments_package. unfold range1 in *.
  replace (length (slides prs)) with (i + (length (slides prs) - i)) by lia.
  rewrite seq_app, for_each_app. unfold bind. rewrite Hrun.
  unfold comments_at. f_equal. apply scan_slides_other.
  rewrite list_elem_of_In, in_seq. lia.
Qed.

End guarded_scan.

(** ** Comment nodes *)

(** C4. A comment node without author list, or with an empty one, makes
    line 82 raise [AttributeError]; a node without text element makes line 81
    raise.  The defaults apply only to an author element without [name] and
    to a text element without text.  In a run the exception ends the scan:
    the comment is lost and a warning is printed. *)
Theorem C4_absent_author_list_raises :
  comment_author_text (Sample.cm_no_author_list "Hi")
  = Raise (AttributeError "get")
  /\ comment_author_text (Sample.cm_empty_author_list "Hi")
     = Raise (AttributeError "get")
  /\ comment_author_text (Sample.cm_no_text "Bob")
     = Raise (AttributeError "text")
  /\ comment_author_text Sample.cm_unnamed_empty
     = Ok ("Unknown Author", EmptyString)
  /\ exists records : list SlideRecord,
       extract_text_from_pptx Sample.anonymous true
       = (Ok records, [CouldNotExtractComments (AttributeError "get")])
       /\ Forall (fun r => comments r = []) records.
Proof.
  repeat split; try reflexivity.
  eexists. split; [vm_compute; reflexivity|]. repeat constructor.
Qed.

(** The comments field does not hold (author, text) pairs.
    Each comment is one string, and two different pairs can give the same
    string, so no function reads the pairs back from the field. *)
Lemma comments_field_not_pairs :
  ~ exists decode : list string -> list (string * string),
      forall author_text : list (string * string),
        decode (Sample.first_comments author_text) = author_text.
Proof.
  intros [decode H].
  pose proof (H [("A", "b: c")]) as H1.
  pose proof (H [("A: b", "c")]) as H2.
  vm_compute in H1, H2. rewrite H1 in H2. discriminate H2.
Qed.

(** When the scan got through slide [i], the comments field of
    slide [i] is a list of strings, one for each comment node of the slide's
    comment part, in document order: the author, a colon and a space, and
    the text. *)
Lemma scanned_comments_in_document_order (prs : presentation)
    (zf : gmap string part) (i : nat) (m_i : gmap nat (list string)) :
  1 <= i <= length (slides prs) ->
  for_each (range1 i) (scan_slide zf) ∅ = (Ok tt, m_i) ->
  exists (records : list SlideRecord) (r : SlideRecord)
         (author_text : list (string * string)),
    (extract_text_from_pptx (Package prs zf) true).1 = Ok records
    /\ records !! (i - 1) = Some r
    /\ slide_number r = i
    /\ Forall2 (fun comment p => comment_author_text comment = Ok p)
               (Spec.slide_comment_nodes zf i) author_text
    /\ comments r
       = map (fun p => p.1 +:+ ": " +:+ p.2) author_text.
Proof.
  intros Hi Hrun. rewrite extract_package, collect_state. cbn [fst].
  destruct (lookup_lt_is_Some_2 (slides prs) (i - 1)) as [slide Hslide];
    [lia|].
  assert (i ∈ range1 i) as Hin
    by (unfold range1; rewrite list_elem_of_In, in_seq; lia).
  destruct (scan_slides_ok zf (range1 i) (NoDup_seq _ _) _ _ Hrun i Hin)
    as [Hnone Hat].
  eexists. eexists. exists (parse_prefix (Spec.slide_comment_nodes zf i)).1.
  split; [reflexivity|]. rewrite records_lookup, Hslide. cbn [fmap option_fmap option_map slide_number comments].
  replace (i - 1 + 1) with i by lia.
  split; [reflexivity|]. split; [reflexivity|].
  split; [now apply parse_prefix_all|].
  fold (comments_at (scan_comments (Package prs zf) prs ∅).2 i).
  rewrite (scan_keeps_earlier prs zf i m_i) by (auto; lia).
  rewrite Hat. reflexivity.
Qed.


(** ** Failures of the comment scan *)

(** What the records hold when the scan fails at slide [j]. *)
Lemma failed_scan_records prs zf j e m_before m_fail :
  1 <= j <= length (slides prs) ->
  for_each (range1 (j - 1)) (scan_slide zf) ∅ = (Ok tt, m_before) ->
  scan_slide zf j m_before = (Raise e, m_fail) ->
  extract_text_from_pptx (Package prs zf) true
  = (Ok (Spec.records m_fail (slides prs)), [CouldNotExtractComments e])
  /\ forall k r,
       Spec.records m_fail (slides prs) !! k = Some r ->
       comments r
       = if (k + 1 <? j)%nat then comments_at m_before (k + 1)
         else if (k + 1 =? j)%nat then comments_at m_fail j
         else [].
Proof.
  intros Hj Hpre Hfail.
  pose proof (scan_raise_at zf _ j e m_before m_fail Hj Hpre Hfail) as Hscan.
  rewrite extract_package, (collect_raise prs zf e m_fail Hscan).
  split; [reflexivity|]. intros k r. rewrite records_lookup.
  destruct (slides prs !! k); [|discriminate]. intros [= <-].
  cbn [comments]. fold (comments_at m_fail (k + 1)).
  destruct (Nat.eqb_spec (k + 1) j) as [->|Hne].
  - now rewrite Nat.ltb_irrefl.
  - apply (scan_fail_keys zf j e m_before m_fail Hpre Hfail _ Hne).
Qed.

(** C3, as stated: a missing comment part surfaces no warning, and a slide
    whose comment part fails at its second comment keeps the first one. *)
Lemma C3_counterexample :
  (extract_text_from_pptx Sample.missing_part true).2 = []
  /\ exists (records : list SlideRecord) (r : SlideRecord),
       extract_text_from_pptx Sample.partial_failure true
       = (Ok records, [CouldNotExtractComments (AttributeError "text")])
       /\ records !! 1 = Some r
       /\ comments r = ["Alice: Looks good"]
       /\ comments r <> [].
Proof.
  split; [vm_compute; reflexivity|].
  eexists. eexists. split; [vm_compute; reflexivity|].
  split; [reflexivity|]. split; [reflexivity|discriminate].
Qed.

(** C3, amended. A part that is not in the archive is skipped without a
    warning.  An exception raised during the scan does not reach the caller:
    one warning is printed, every slide still has its record with its number
    and text; the slides before the one where the scan failed keep their
    comments, that slide keeps what [all_comments] held for it when the
    exception was raised, and the slides after it have empty comment
    lists. *)
Theorem C3_scan_failure_absorbed (prs : presentation) (zf : gmap string part) :
  (forall i m, zf !! rel_file_path i = None -> scan_slide zf i m = (Ok tt, m))
  /\ (forall i rel target m,
        ET.get rel "Target" = Some target ->
        zf !! comment_file_path target = None ->
        scan_rel zf i rel m = (Ok tt, m))
  /\ (forall e m,
        scan_comments (Package prs zf) prs ∅ = (Raise e, m) ->
        exists (records : list SlideRecord) (j : nat),
          extract_text_from_pptx (Package prs zf) true
          = (Ok records, [CouldNotExtractComments e])
          /\ slide_number <$> records = seq 1 (length (slides prs))
          /\ slide_text <$> records = slide_body_text <$> slides prs
          /\ 1 <= j <= length (slides prs)
          /\ (scan_slide zf j
                (for_each (range1 (j - 1)) (scan_slide zf) ∅).2).1 = Raise e
          /\ forall k r,
               records !! k = Some r ->
               comments r
               = if (k + 1 <? j)%nat then
                   comments_at
                     (for_each (range1 (j - 1)) (scan_slide zf) ∅).2 (k + 1)
                 else if (k + 1 =? j)%nat then comments_at m j
                 else []).
Proof.
  split; [|split].
  - intros i m H. unfold scan_slide. now rewrite H.
  - intros i rel target m Ht Hc. unfold scan_rel. rewrite Ht, Hc.
    now destruct (contains "comments" target).
  - intros e m Hscan. rewrite scan_comments_package in Hscan.
    destruct (scan_stops zf _ e m Hscan) as (j & m_before & Hj & Hpre & Hfail).
    destruct (failed_scan_records prs zf j e m_before m Hj Hpre Hfail)
      as [Hrun Hrec].
    exists (Spec.records m (slides prs)), j. split; [exact Hrun|].
    split; [apply records_numbers|]. split; [apply records_texts|].
    split; [exact Hj|].
    split; [rewrite Hpre; cbn [snd]; now rewrite Hfail|].
    intros k r Hk. rewrite (Hrec k r Hk), Hpre. reflexivity.
Qed.

Lemma C3_scan_failure_absorbed_witness :
  exists (records : list SlideRecord) (j : nat),
    extract_text_from_pptx Sample.partial_failure true
    = (Ok records, [CouldNotExtractComments (AttributeError "text")])
    /\ slide_number <$> records = seq 1 3
    /\ slide_text <$> records = slide_body_text <$> slides Sample.deck
    /\ 1 <= j <= 3
    /\ (scan_slide
          (Sample.archive Sample.alice_bob Sample.broken_part
             [Sample.cm_node "Dan" "Last slide"]) j
          (for_each (range1 (j - 1))
             (scan_slide
                (Sample.archive Sample.alice_bob Sample.broken_part
                   [Sample.cm_node "Dan" "Last slide"])) ∅).2).1
       = Raise (AttributeError "text")
    /\ comments <$> records
       = [["Alice: Looks good"; "Bob: Fix typo"]; ["Alice: Looks good"]; []].
Proof.
  destruct (C3_scan_failure_absorbed Sample.deck
              (Sample.archive Sample.alice_bob Sample.broken_part
                 [Sample.cm_node "Dan" "Last slide"])) as (_ & _ & H).
  destruct (H (AttributeError "text")
              (scan_comments Sample.partial_failure Sample.deck ∅).2)
    as (records & j & Hrun & Hnum & Htext & Hj & Hfail & _).
  { vm_compute. reflexivity. }
  exists records, j. split; [exact Hrun|]. split; [exact Hnum|].
  split; [exact Htext|]. split; [exact Hj|]. split; [exact Hfail|].
  assert (Ok (A:=list SlideRecord) records
          = (extract_text_from_pptx Sample.partial_failure true).1) as Heq
    by (unfold Sample.partial_failure; now rewrite Hrun).
  vm_compute in Heq. injection Heq as ->. reflexivity.
Defined.

(** C10. When the scan fails at slide [j], after the slides before it went
    through: the slides before [j] keep their comments, the record of slide
    [j] holds what [all_comments] held for [j] when the exception was raised,
    and the slides after [j] get the empty list.  When the exception comes
    from a comment node, what slide [j] keeps is the strings of the nodes
    before the failing one, and nothing of the nodes after it. *)
Theorem C10_failure_keeps_prefix (prs : presentation) (zf : gmap string part)
    (j : nat) (e : exn) (m_before m_fail : gmap nat (list string)) :
  1 <= j <= length (slides prs) ->
  for_each (range1 (j - 1)) (scan_slide zf) ∅ = (Ok tt, m_before) ->
  scan_slide zf j m_before = (Raise e, m_fail) ->
  exists records : list SlideRecord,
    extract_text_from_pptx (Package prs zf) true
    = (Ok records, [CouldNotExtractComments e])
    /\ length records = length (slides prs)
    /\ (forall k r,
          records !! k = Some r ->
          comments r
          = if (k + 1 <? j)%nat then comments_at m_before (k + 1)
            else if (k + 1 =? j)%nat then comments_at m_fail j
            else [])
    /\ (forall attr, e = AttributeError attr ->
        exists (good : list Element) (bad : Element) (rest : list Element)
               (author_text : list (string * string)),
          Spec.slide_comment_nodes zf j = good ++ bad :: rest
          /\ Forall2 (fun comment p => comment_author_text comment = Ok p)
                     good author_text
          /\ comment_author_text bad = Raise e
          /\ comments_at m_fail j = format_pair <$> author_text).
Proof.
  intros Hj Hpre Hfail.
  destruct (failed_scan_records prs zf j e m_before m_fail Hj Hpre Hfail)
    as [Hrun Hrec].
  exists (Spec.records m_fail (slides prs)). split; [exact Hrun|].
  split; [apply length_imap|]. split; [exact Hrec|].
  intros attr ->.
  destruct (scan_slide_nodes zf j m_before _ m_fail Hfail I) as [Hout Hat].
  assert ((parse_prefix (Spec.slide_comment_nodes zf j)).2
          = Some (AttributeError attr)) as Hsome.
  { destruct (parse_prefix (Spec.slide_comment_nodes zf j)).2;
      simpl in Hout; congruence. }
  destruct (parse_prefix_split _ _ Hsome)
    as (good & bad & rest & Hsplit & Hgood & Hbad).
  exists good, bad, rest, (parse_prefix (Spec.slide_comment_nodes zf j)).1.
  repeat split; try assumption.
  rewrite Hat. replace (comments_at m_before j) with (@nil string);
    [reflexivity|].
  unfold comments_at.
  pose proof (scan_slides_other zf (range1 (j - 1)) ∅ j) as Hother.
  rewrite Hpre in Hother. simpl in Hother. rewrite Hother.
  - now rewrite lookup_empty.
  - unfold range1. rewrite list_elem_of_In, in_seq. lia.
Qed.

Lemma C10_failure_keeps_prefix_witness :
  exists records : list SlideRecord,
    extract_text_from_pptx Sample.partial_failure true
    = (Ok records, [CouldNotExtractComments (AttributeError "text")])
    /\ comments <$> records
       = [["Alice: Looks good"; "Bob: Fix typo"]; ["Alice: Looks good"]; []].
Proof.
  pose (zf := Sample.archive Sample.alice_bob Sample.broken_part
                [Sample.cm_node "Dan" "Last slide"]).
  pose (m_before := (for_each (range1 1) (scan_slide zf) ∅).2).
  pose (m_fail := (scan_slide zf 2 m_before).2).
  destruct (C10_failure_keeps_prefix Sample.deck zf 2 (AttributeError "text")
              m_before m_fail) as (records & Hrun & _).
  - simpl. lia.
  - vm_compute. reflexivity.
  - vm_compute. reflexivity.
  - exists records. split; [exact Hrun|].
    assert (Ok (A:=list SlideRecord) records
            = (extract_text_from_pptx Sample.partial_failure true).1) as Heq
      by (unfold Sample.partial_failure; fold zf; now rewrite Hrun).
    vm_compute in Heq. injection Heq as ->. reflexivity.
Defined.


(** * Further properties of the extraction *)

(** ** More on strings *)

Section more_strings.

Lemma str_app_cons (x : ascii) (a b : string) :
  String x a +:+ b = String x (a +:+ b).
Proof. reflexivity. Qed.

Lemma str_app_assoc (a b c : string) : (a +:+ b) +:+ c = a +:+ (b +:+ c).
Proof.
  induction a as [|x a IH]; [reflexivity|]. rewrite !str_app_cons. now f_equal.
Qed.

Lemma str_app_nil_r (a : string) : a +:+ EmptyString = a.
Proof.
  induction a as [|x a IH]; [reflexivity|]. rewrite str_app_cons. now f_equal.
Qed.

Lemma rstrip_idem s : rstrip (rstrip s) = rstrip s.
Proof.
  induction s as [|c s IH]; [reflexivity|]. simpl.
  destruct (rstrip s) as [|d r] eqn:Hr.
  - destruct (isspace c) eqn:Hc; [reflexivity|]. simpl. now rewrite Hc.
  - simpl in IH. simpl. now rewrite IH.
Qed.

Lemma rstrip_blank s : rstrip s = EmptyString -> all_space s = true.
Proof.
  induction s as [|c s IH]; [reflexivity|]. simpl.
  destruct (rstrip s) as [|d r]; [|discriminate].
  destruct (isspace c); [intros _; now apply IH|discriminate].
Qed.

(** Text before a part that is not blank is out of reach of [rstrip]. *)
Lemma rstrip_app a b :
  all_space b = false -> rstrip (a +:+ b) = a +:+ rstrip b.
Proof.
  intros Hb. induction a as [|c a IH]; [reflexivity|].
  rewrite !str_app_cons. simpl. rewrite IH.
  destruct (a +:+ rstrip b) as [|d r] eqn:Hab; [|reflexivity].
  destruct a; [|discriminate]. simpl in Hab.
  apply rstrip_blank in Hab. congruence.
Qed.

Lemma lstrip_app a b :
  lstrip (a +:+ b) = if all_space a then lstrip b else lstrip a +:+ b.
Proof.
  induction a as [|c a IH]; [reflexivity|]. simpl.
  destruct (isspace c); [exact IH|reflexivity].
Qed.

Lemma lstrip_head s :
  match lstrip s with
  | EmptyString => True
  | String c _ => isspace c = false
  end.
Proof.
  induction s as [|c s IH]; simpl; [exact I|].
  destruct (isspace c) eqn:Hc; [exact IH|exact Hc].
Qed.

Lemma strip_idem s : strip (strip s) = strip s.
Proof.
  unfold strip. pose proof (lstrip_head s) as Hh.
  destruct (lstrip s) as [|c t]; [reflexivity|].
  assert (exists r, rstrip (String c t) = String c r) as [r Hr].
  { simpl. rewrite Hh. destruct (rstrip t); eauto. }
  rewrite Hr. simpl lstrip. rewrite Hh, <- Hr. apply rstrip_idem.
Qed.

Lemma has_slash_app a b : has_slash (a +:+ b) = has_slash a || has_slash b.
Proof.
  induction a as [|c a IH]; [reflexivity|]. simpl.
  now rewrite IH, orb_assoc.
Qed.

Lemma basename_no_slash s : has_slash s = false -> basename s = s.
Proof.
  destruct s as [|c s]; [reflexivity|]. simpl. now intros ->.
Qed.

Lemma basename_app dir name :
  has_slash name = false -> basename (dir +:+ "/" +:+ name) = name.
Proof.
  intros Hn. induction dir as [|c dir IH]; simpl.
  - now apply basename_no_slash.
  - rewrite has_slash_app. simpl. now rewrite !orb_true_r.
Qed.

End more_strings.

(** ** More on the stable sort *)

Section sorted_remove.

Context {A : Type} (key : A -> Z).



End sorted_remove.

(** ** The slide text: what does not show *)

Lemma join_snoc sep l x :
  join sep (l ++ [x])
  = match l with
    | [] => x
    | _ :: _ => join sep l +:+ sep +:+ x
    end.
Proof.
  induction l as [|y l IH]; [reflexivity|].
  destruct l as [|z l]; [reflexivity|].
  change (join sep ((y :: z :: l) ++ [x]))
    with (y +:+ sep +:+ join sep ((z :: l) ++ [x])).
  rewrite IH.
  change (join sep (y :: z :: l)) with (y +:+ sep +:+ join sep (z :: l)).
  now rewrite !str_app_assoc.
Qed.


(** X1. The text of a slide is trimmed: trimming it again changes
    nothing, so it never starts or ends with a white-space character. *)
Theorem X1_body_text_is_trimmed (slide : Slide) :
  strip (slide_body_text slide) = slide_body_text slide
  /\ match slide_body_text slide with
     | EmptyString => True
     | String c _ => isspace c = false
     end.
Proof.
  unfold slide_body_text. split; [apply strip_idem|].
  set (s := join _ _). unfold strip.
  pose proof (lstrip_head s) as Hh. destruct (lstrip s) as [|c t]; [exact I|].
  simpl. rewrite Hh. now destruct (rstrip t).
Qed.

(** X2. Notes that are blank (white space only) are left out: the slide
    reads as if it had no notes slide. *)
Theorem X2_blank_notes_left_out (shape_list : list Shape) (notes : string) :
  all_space notes = true ->
  slide_body_text (mkSlide shape_list (Some notes))
  = slide_body_text (mkSlide shape_list None).
Proof.
  intros H. unfold slide_body_text, add_notes. simpl.
  now rewrite strip_truthy, H.
Qed.

Lemma X2_blank_notes_left_out_witness :
  slide_body_text
    (mkSlide (shapes Sample.title_slide) (Some (" " +:+ LF +:+ " ")))
  = slide_body_text (mkSlide (shapes Sample.title_slide) None).
Proof.
  apply (X2_blank_notes_left_out (shapes Sample.title_slide)). reflexivity.
Defined.



Lemma strip_before_notes (pre notes : string) :
  all_space notes = false ->
  strip (pre +:+ "--- Speaker Notes ---" +:+ LF +:+ notes)
  = (if all_space pre then EmptyString else lstrip pre)
    +:+ "--- Speaker Notes ---" +:+ LF +:+ rstrip notes.
Proof.
  intros Hn. unfold strip. rewrite lstrip_app.
  destruct (all_space pre).
  - change (lstrip ("--- Speaker Notes ---" +:+ LF +:+ notes))
      with (("--- Speaker Notes ---" +:+ LF) +:+ notes).
    now rewrite rstrip_app.
  - rewrite <- (str_app_assoc _ _ notes). rewrite <- (str_app_assoc (lstrip pre)).
    rewrite rstrip_app by exact Hn. now rewrite !str_app_assoc.
Qed.

(** X4. Notes that are not blank come last: the text of the slide ends with
    the header line and the notes, trimmed on the right only; when no shape
    of the slide has a text frame, the text starts with the header line. *)
Theorem X4_notes_come_last (slide : Slide) (notes : string) :
  notes_slide slide = Some notes ->
  all_space notes = false ->
  exists before : string,
    slide_body_text slide
    = before +:+ "--- Speaker Notes ---" +:+ LF +:+ rstrip notes
    /\ (Forall (fun s => has_text_frame s = false) (shapes slide) ->
        before = EmptyString).
Proof.
  intros Hnotes Hblank. rewrite slide_body_text_spec.
  unfold Spec.body_text, Spec.notes_part. rewrite Hnotes, Hblank.
  rewrite filter_app.
  replace (filter (fun t => truthy t = true) [notes_header +:+ notes])
    with [notes_header +:+ notes] by reflexivity.
  rewrite join_snoc.
  destruct (filter (fun t => truthy t = true)
              (map Spec.shape_text (text_shapes slide))) as [|t ts] eqn:Hts.
  - change (notes_header +:+ notes)
      with (LF +:+ "--- Speaker Notes ---" +:+ LF +:+ notes).
    rewrite strip_before_notes by exact Hblank. simpl all_space.
    exists EmptyString. split; [reflexivity|reflexivity].
  - change (join blank_line (t :: ts) +:+ blank_line +:+ notes_header +:+ notes)
      with (join blank_line (t :: ts)
            +:+ (blank_line +:+ LF)
            +:+ "--- Speaker Notes ---" +:+ LF +:+ notes).
    rewrite <- (str_app_assoc (join blank_line (t :: ts)) (blank_line +:+ LF)).
    rewrite strip_before_notes by exact Hblank.
    eexists. split; [reflexivity|]. intros Hno. exfalso.
    assert (text_shapes slide = []) as Hnil.
    { unfold text_shapes.
      replace (filter (fun s => has_text_frame s = true) (shapes slide))
        with (@nil Shape); [reflexivity|].
      induction Hno as [|s l Hs _ IH]; [reflexivity|].
      rewrite filter_cons, decide_False by congruence. exact IH. }
    rewrite Hnil in Hts. discriminate Hts.
Qed.

Lemma X4_notes_come_last_witness :
  exists before : string,
    slide_body_text (mkSlide [Sample.picture 0] (Some ("Say hello. " +:+ LF)))
    = before +:+ "--- Speaker Notes ---" +:+ LF +:+ "Say hello."
    /\ (Forall (fun s => has_text_frame s = false) [Sample.picture 0] ->
        before = EmptyString).
Proof.
  apply (X4_notes_come_last
           (mkSlide [Sample.picture 0] (Some ("Say hello. " +:+ LF)))
           ("Say hello. " +:+ LF)); reflexivity.
Defined.

(** ** The comment scan: what it reads *)

(** X5. A relationship target is resolved by its file name alone: whatever
    directory the target names, the part looked up is the one of that file
    name under [ppt/comments/]. *)
Theorem X5_target_directory_ignored (dir name : string) :
  has_slash name = false ->
  comment_file_path (dir +:+ "/" +:+ name) = "ppt/comments/" +:+ name
  /\ forall dir' : string,
       comment_file_path (dir' +:+ "/" +:+ name)
       = comment_file_path (dir +:+ "/" +:+ name).
Proof.
  intros H. unfold comment_file_path. split.
  - now rewrite basename_app.
  - intros dir'. now rewrite !basename_app.
Qed.

Lemma X5_target_directory_ignored_witness :
  comment_file_path ("../comments" +:+ "/" +:+ "comment1.xml")
  = "ppt/comments/" +:+ "comment1.xml"
  /\ forall dir' : string,
       comment_file_path (dir' +:+ "/" +:+ "comment1.xml")
       = comment_file_path ("../comments" +:+ "/" +:+ "comment1.xml").
Proof.
  apply (X5_target_directory_ignored "../comments" "comment1.xml").
  reflexivity.
Defined.

Lemma for_each_ext {A} (xs : list A) (f g : A -> M unit) :
  (forall x, x ∈ xs -> forall m, f x m = g x m) ->
  forall m, for_each xs f m = for_each xs g m.
Proof.
  induction xs as [|x xs IH]; intros H m; [reflexivity|]. simpl.
  unfold bind. rewrite (H x) by left.
  destruct (g x m) as [[[]|e] m1]; [|reflexivity].
  apply IH. intros y Hy. apply H. now right.
Qed.

Lemma scan_rel_ext (zf zf' : gmap string part) i rel m :
  (forall target, zf !! comment_file_path target
                  = zf' !! comment_file_path target) ->
  scan_rel zf i rel m = scan_rel zf' i rel m.
Proof.
  intros H. unfold scan_rel. destruct (ET.get rel "Target") as [t|];
    [|reflexivity]. now rewrite (H t).
Qed.

Lemma scan_slide_ext (zf zf' : gmap string part) i m :
  zf !! rel_file_path i = zf' !! rel_file_path i ->
  (forall target, zf !! comment_file_path target
                  = zf' !! comment_file_path target) ->
  scan_slide zf i m = scan_slide zf' i m.
Proof.
  intros Hrel Hcm. unfold scan_slide. rewrite Hrel.
  destruct (zf' !! rel_file_path i) as [rel_file|]; [|reflexivity].
  unfold bind, lift. destruct (ET_parse rel_file) as [root|e]; [|reflexivity].
  apply for_each_ext. intros rel _ m'. now apply scan_rel_ext.
Qed.

(** X6. Once the presentation is loaded, the comment scan of lines 64-85
    looks at nothing in the archive but the relationship parts of the slides
    1 to N and the parts under [ppt/comments/]: for two archives that agree on
    these it leaves the same [all_comments] and prints the same warnings,
    whatever else the archives hold and whatever the slides are. *)
Theorem X6_scan_reads_only_comment_parts (sl sl' : list Pptx.SlideObject)
    (zf zf' : gmap string part) (n : nat) (include_comments : bool) :
  (forall i, 1 <= i <= n -> zf !! rel_file_path i = zf' !! rel_file_path i) ->
  (forall target, zf !! comment_file_path target
                  = zf' !! comment_file_path target) ->
  Pptx.collect_comments (Pptx.zip sl zf) n include_comments
  = Pptx.collect_comments (Pptx.zip sl' zf') n include_comments.
Proof.
  intros Hrel Hcm. unfold Pptx.collect_comments.
  destruct include_comments; [|reflexivity].
  unfold bind, lift, Pptx.ZipFile.
  rewrite (for_each_ext _ (scan_slide zf) (scan_slide zf')); [reflexivity|].
  intros i Hi m. apply scan_slide_ext; [|exact Hcm]. apply Hrel.
  unfold range1 in Hi. apply list_elem_of_In, in_seq in Hi. lia.
Qed.

Lemma X6_scan_reads_only_comment_parts_witness :
  Pptx.collect_comments
    (Pptx.zip [] (Sample.archive Sample.alice_bob [] [])) 3 true
  = Pptx.collect_comments
      (Pptx.zip []
         (<["docProps/app.xml" := Malformed]>
            (Sample.archive Sample.alice_bob [] []))) 3 true.
Proof.
  apply (X6_scan_reads_only_comment_parts [] []).
  - intros i _. symmetry. apply lookup_insert_ne. discriminate.
  - intros target. symmetry. apply lookup_insert_ne. discriminate.
Defined.

(** * Properties of the renderers *)

(** ** The Markdown string for Pandoc *)

Lemma fold_left_append {A} (B : A -> string) (l : list A) (acc : string) :
  fold_left (fun acc x => acc +:+ B x) l acc
  = acc +:+ fold_left (fun acc x => acc +:+ B x) l EmptyString.
Proof.
  revert acc. induction l as [|x l IH]; intros acc; simpl.
  - now rewrite str_app_nil_r.
  - rewrite IH, (IH (EmptyString +:+ B x)). now rewrite str_app_assoc.
Qed.

Lemma markdown_app (d1 d2 : list SlideRecord) :
  generate_markdown_string_for_pandoc (d1 ++ d2)
  = generate_markdown_string_for_pandoc d1
    +:+ generate_markdown_string_for_pandoc d2.
Proof.
  unfold generate_markdown_string_for_pandoc. rewrite fold_left_app.
  match goal with |- fold_left ?F _ _ = _ => set (step := F) end.
  generalize (fold_left step d1 EmptyString). intros acc.
  assert (Hstep : forall acc r, step acc r = acc +:+ step EmptyString r).
  { intros a r. unfold step. destruct (comments r) as [|c cs]; simpl.
    - now rewrite !str_app_assoc.
    - rewrite (fold_left_append (fun c => "* " +:+ c +:+ LF) cs).
      rewrite (fold_left_append (fun c => "* " +:+ c +:+ LF) cs
                 (_ +:+ ("* " +:+ c +:+ LF))).
      now rewrite !str_app_assoc. }
  revert acc. induction d2 as [|r d2 IH]; intros acc; simpl.
  - now rewrite str_app_nil_r.
  - rewrite IH, (IH (step EmptyString r)), Hstep. now rewrite str_app_assoc.
Qed.

Lemma markdown_one (r : SlideRecord) :
  generate_markdown_string_for_pandoc [r]
  = "## Slide " +:+ pretty (slide_number r) +:+ LF +:+ LF
    +:+ slide_text r +:+ LF +:+ LF
    +:+ (if truthy_list (comments r)
         then "### Comments" +:+ LF +:+ LF
              +:+ markdown_bullets (comments r) +:+ LF
         else EmptyString)
    +:+ "---" +:+ LF +:+ LF.
Proof.
  unfold generate_markdown_string_for_pandoc, markdown_bullets. simpl.
  destruct (comments r) as [|c cs]; simpl.
  - now rewrite !str_app_assoc.
  - rewrite (fold_left_append (fun c => "* " +:+ c +:+ LF) cs).
    rewrite (fold_left_append (fun c => "* " +:+ c +:+ LF) cs
               (_ +:+ ("* " +:+ c +:+ LF))).
    now rewrite !str_app_assoc.
Qed.

(** X7. The Markdown string is the concatenation of one block per record:
    rendering two lists one after the other gives the rendering of the
    joined list, nothing is rendered for no record, and the block of a record
    is its heading, its text, the comments section when there are comments,
    and the rule. *)
Theorem X7_markdown_record_blocks (d1 d2 : list SlideRecord)
    (r : SlideRecord) :
  generate_markdown_string_for_pandoc (d1 ++ d2)
  = generate_markdown_string_for_pandoc d1
    +:+ generate_markdown_string_for_pandoc d2
  /\ generate_markdown_string_for_pandoc [] = EmptyString
  /\ generate_markdown_string_for_pandoc (r :: d2)
     = "## Slide " +:+ pretty (slide_number r) +:+ LF +:+ LF
       +:+ slide_text r +:+ LF +:+ LF
       +:+ (if truthy_list (comments r)
            then "### Comments" +:+ LF +:+ LF
                 +:+ markdown_bullets (comments r) +:+ LF
            else EmptyString)
       +:+ "---" +:+ LF +:+ LF
       +:+ generate_markdown_string_for_pandoc d2.
Proof.
  split; [apply markdown_app|]. split; [reflexivity|].
  change (r :: d2) with ([r] ++ d2). rewrite markdown_app, markdown_one.
  now rewrite !str_app_assoc.
Qed.

(** X8. Nothing is escaped: a slide text is copied as it is, so a record
    whose text holds a rule and a slide heading gives the very string that two
    records give.  The records cannot be told from the Markdown string. *)
Theorem X8_markdown_not_escaped (n m : nat) (t1 t2 : string)
    (cs : list string) (rest : list SlideRecord) :
  generate_markdown_string_for_pandoc
    (mkRecord n
       (t1 +:+ LF +:+ LF +:+ "---" +:+ LF +:+ LF
        +:+ "## Slide " +:+ pretty m +:+ LF +:+ LF +:+ t2) cs :: rest)
  = generate_markdown_string_for_pandoc
      (mkRecord n t1 [] :: mkRecord m t2 cs :: rest).
Proof.
  change (mkRecord n t1 [] :: mkRecord m t2 cs :: rest)
    with ([mkRecord n t1 []] ++ [mkRecord m t2 cs] ++ rest).
  match goal with
  | |- generate_markdown_string_for_pandoc (?r :: rest) = _ =>
      change (r :: rest) with ([r] ++ rest)
  end.
  rewrite !markdown_app, !markdown_one. simpl slide_text. simpl comments.
  simpl slide_number. simpl truthy_list.
  now rewrite !str_app_assoc.
Qed.

(** ** The documents of the native writers *)

Section writer_loops.

Context {A B : Type}.

Lemma fold_left_snoc_map (f : A -> B) (l : list A) (acc : list B) :
  fold_left (fun acc x => acc ++ [f x]) l acc = acc ++ map f l.
Proof.
  revert acc. induction l as [|x l IH]; intros acc; simpl.
  - now rewrite app_nil_r.
  - now rewrite IH, <- app_assoc.
Qed.

Lemma fold_left_flat_map (step : list B -> A -> list B) (g : A -> list B)
    (l : list A) (acc : list B) :
  (forall acc x, step acc x = acc ++ g x) ->
  fold_left step l acc = acc ++ flat_map g l.
Proof.
  intros Hstep. revert acc. induction l as [|x l IH]; intros acc; simpl.
  - now rewrite app_nil_r.
  - now rewrite IH, Hstep, <- app_assoc.
Qed.

(** Two runs of items followed by something that is no item: the runs and
    what follows them are the same. *)
Lemma item_runs_equal (f : A -> B) (l1 l2 : list A) (r1 r2 : list B) :
  (forall x y, f x = f y -> x = y) ->
  (forall x, head r1 <> Some (f x)) ->
  (forall x, head r2 <> Some (f x)) ->
  map f l1 ++ r1 = map f l2 ++ r2 ->
  l1 = l2 /\ r1 = r2.
Proof.
  intros Hinj H1 H2. revert l2.
  induction l1 as [|x l1 IH]; intros [|y l2]; simpl; intros Heq.
  - now split.
  - exfalso. apply (H1 y). now rewrite Heq.
  - exfalso. apply (H2 x). now rewrite <- Heq.
  - injection Heq as Hxy Heq. apply Hinj in Hxy as ->.
    destruct (IH _ Heq) as [-> ->]. now split.
Qed.

End writer_loops.





Lemma rtf_document (data : list SlideRecord) (output_file : string) :
  save_as_rtf_native data output_file
  = (output_file, flat_map rtf_slide data).
Proof.
  unfold save_as_rtf_native. f_equal.
  rewrite (fold_left_flat_map _ rtf_slide); [reflexivity|].
  intros acc r. unfold rtf_slide. destruct (comments r) as [|c cs] eqn:Hc.
  - simpl. now rewrite <- !app_assoc.
  - cbn [truthy_list].
    rewrite (fold_left_snoc_map (fun c => RtfParagraph ("- " +:+ c) None)).
    now rewrite <- !app_assoc.
Qed.

Lemma record_eq (r1 r2 : SlideRecord) :
  slide_number r1 = slide_number r2 -> slide_text r1 = slide_text r2 ->
  comments r1 = comments r2 -> r1 = r2.
Proof. destruct r1, r2. simpl. now intros -> -> ->. Qed.


Lemma rtf_slides_inj (d1 d2 : list SlideRecord) :
  flat_map rtf_slide d1 = flat_map rtf_slide d2 -> d1 = d2.
Proof.
  revert d2. induction d1 as [|r1 d1 IH]; intros [|r2 d2]; simpl;
    try reflexivity; try discriminate.
  intros [= Hn Ht Hrest].
  change (pretty (slide_number r1) = pretty (slide_number r2)) in Hn.
  apply (inj pretty) in Hn.
  rewrite <- !app_assoc in Hrest.
  enough (comments r1 = comments r2
          /\ flat_map rtf_slide d1 = flat_map rtf_slide d2) as [Hc Hd].
  { f_equal; [now apply record_eq | now apply IH]. }
  destruct (comments r1) as [|c1 cs1], (comments r2) as [|c2 cs2].
  - injection Hrest as Hrest. now split.
  - discriminate.
  - discriminate.
  - injection Hrest as Hc Hrest. change (c1 = c2) in Hc. subst c2.
    apply (item_runs_equal (fun c => RtfParagraph ("- " +:+ c) None))
      in Hrest as [-> Hd]; try (intros; discriminate).
    + injection Hd as Hd. now split.
    + intros x y [= Hxy]. exact Hxy.
Qed.



(** X10. The RTF document loses nothing either, although a comment and a
    slide text are paragraphs of the same kind there: two different lists of
    records give different paragraphs. *)
Theorem X10_rtf_document_tells_records_apart (d1 d2 : list SlideRecord)
    (f1 f2 : string) :
  d1 <> d2 ->
  (save_as_rtf_native d1 f1).2 <> (save_as_rtf_native d2 f2).2.
Proof.
  intros Hne. rewrite !rtf_document. simpl. intros H.
  now apply Hne, rtf_slides_inj.
Qed.

Lemma X10_rtf_document_tells_records_apart_witness :
  (save_as_rtf_native [mkRecord 1 "- x" []] "out.rtf").2
  <> (save_as_rtf_native [mkRecord 1 "" ["x"]] "out.rtf").2.
Proof.
  apply X10_rtf_document_tells_records_apart. discriminate.
Defined.

(** ** The file name given to mdutils *)

Lemma remove_dot_md_cons (c c1 c2 : ascii) (rest : string) :
  remove_dot_md (String c (String c1 (String c2 rest)))
  = if Ascii.eqb c "." && Ascii.eqb c1 "m" && Ascii.eqb c2 "d"
    then remove_dot_md rest
    else String c (remove_dot_md (String c1 (String c2 rest))).
Proof. reflexivity. Qed.

Lemma prefix_dot_md (c c1 c2 : ascii) (rest : string) :
  Ascii.eqb c "." && Ascii.eqb c1 "m" && Ascii.eqb c2 "d" = true ->
  String.prefix ".md" (String c (String c1 (String c2 rest))) = true.
Proof.
  intros [[H0 H1]%andb_prop H2]%andb_prop.
  apply Ascii.eqb_eq in H0, H1, H2. subst. now destruct rest.
Qed.

Lemma remove_dot_md_app (p q : string) :
  contains ".md" p = false ->
  remove_dot_md (p +:+ ".md" +:+ q) = p +:+ remove_dot_md q.
Proof.
  induction p as [|c p IH]; [reflexivity|].
  intros H. cbn [contains] in H. apply orb_false_elim in H as [Hpre Hp].
  specialize (IH Hp). destruct p as [|c1 [|c2 p]].
  - change (String c EmptyString +:+ ".md" +:+ q)
      with (String c (String "." (String "m" (String "d" q)))).
    rewrite remove_dot_md_cons. now destruct (Ascii.eqb c ".").
  - change (String c (String c1 EmptyString) +:+ ".md" +:+ q)
      with (String c (String c1 (String "." (String "m" (String "d" q))))).
    rewrite !remove_dot_md_cons.
    now destruct (Ascii.eqb c "."), (Ascii.eqb c1 "m"), (Ascii.eqb c1 ".").
  - rewrite !str_app_cons in *. rewrite remove_dot_md_cons.
    destruct (Ascii.eqb c "." && Ascii.eqb c1 "m" && Ascii.eqb c2 "d")
      eqn:Htest.
    + rewrite (prefix_dot_md _ _ _ _ Htest) in Hpre. discriminate Hpre.
    + now rewrite IH.
Qed.

(** X11. The file name given to mdutils is the output path with the first
    [.md] taken out, wherever it stands, and with later ones taken out as
    well: it is the path without its extension only when the rest of the
    path holds no [.md]. *)
Theorem X11_mdutils_file_name (data : list SlideRecord) (p q : string)
    (wrap_width : Z) :
  contains ".md" p = false ->
  file_name (save_as_markdown_native data (p +:+ ".md" +:+ q) wrap_width)
  = p +:+ remove_dot_md q.
Proof. intros H. simpl. now apply remove_dot_md_app. Qed.

Lemma X11_mdutils_file_name_witness :
  file_name (save_as_markdown_native [] ("talks" +:+ ".md" +:+ "/deck.md") 0)
  = "talks" +:+ "/deck".
Proof.
  apply (X11_mdutils_file_name [] "talks" "/deck.md" 0). reflexivity.
Defined.

(** * Properties of the command line *)

Lemma save_set_no_comments has args flag data :
  save has (set_no_comments args flag) data = save has args data.
Proof. reflexivity. Qed.

Lemma records_without_comments m sl :
  without_comments <$> Spec.records m sl = Spec.records ∅ sl.
Proof.
  unfold Spec.records. rewrite fmap_imap. apply imap_ext.
  intros i slide _. unfold without_comments. simpl. now rewrite lookup_empty.
Qed.


(** X13. For the [md] format pypandoc is never used: what [main] does is the
    same whatever [--output-lib] is and whether pypandoc is installed or
    not. *)
Theorem X13_md_never_through_pandoc (has : Installed) (fs : FileSystem)
    (args : Namespace) (l : output_lib) (b : bool) :
  arg_output_format args = fmt_md ->
  main (set_HAS_PANDOC has b) fs (set_output_lib args l) = main has fs args.
Proof.
  intros Hmd. destruct args as [inp f nc lb w], has as [hp hd hm hr hx].
  cbn in Hmd. subst f. unfold main, set_HAS_PANDOC, set_output_lib.
  cbn [HAS_PPTX HAS_PANDOC HAS_DOCX HAS_MDUTILS HAS_RTF3 input_file
       no_comments arg_output_format arg_output_lib wrap_text].
  destruct hx; [|reflexivity].
  destruct (path_exists fs inp); [|reflexivity].
  cbn [negb]. destruct (extract_text_from_pptx _ _) as [[data|e] stderr];
    [|reflexivity].
  f_equal. unfold save, use_pandoc.
  cbn [HAS_PANDOC arg_output_format arg_output_lib negb].
  now rewrite !andb_false_r.
Qed.

Lemma X13_md_never_through_pandoc_witness :
  main (set_HAS_PANDOC SampleRun.everything false) SampleRun.fs
    (set_output_lib (SampleRun.args "deck.pptx" fmt_md lib_auto) lib_pandoc)
  = main SampleRun.everything SampleRun.fs
      (SampleRun.args "deck.pptx" fmt_md lib_auto).
Proof.
  apply (X13_md_never_through_pandoc SampleRun.everything SampleRun.fs
           (SampleRun.args "deck.pptx" fmt_md lib_auto) lib_pandoc false).
  reflexivity.
Defined.

(** X14. [--wrap-text] matters for the [md] format only: for [docx] and
    [rtf], [main] does the same whatever the width is. *)
Theorem X14_wrap_text_only_for_md (has : Installed) (fs : FileSystem)
    (args : Namespace) (w : Z) :
  arg_output_format args <> fmt_md ->
  main has fs (set_wrap_text args w) = main has fs args.
Proof.
  intros Hmd. destruct args as [inp f nc lb w0].
  cbn in Hmd. unfold main, set_wrap_text.
  cbn [input_file no_comments arg_output_format arg_output_lib wrap_text].
  destruct (HAS_PPTX has); [|reflexivity].
  destruct (path_exists fs inp); [|reflexivity].
  cbn [negb]. destruct (extract_text_from_pptx _ _) as [[data|e] stderr];
    [|reflexivity].
  f_equal. destruct f; [reflexivity|congruence|reflexivity].
Qed.

Lemma X14_wrap_text_only_for_md_witness :
  main SampleRun.no_pandoc SampleRun.fs
    (set_wrap_text (SampleRun.args "deck.pptx" fmt_rtf lib_auto) 72)
  = main SampleRun.no_pandoc SampleRun.fs
      (SampleRun.args "deck.pptx" fmt_rtf lib_auto).
Proof.
  apply (X14_wrap_text_only_for_md SampleRun.no_pandoc SampleRun.fs
           (SampleRun.args "deck.pptx" fmt_rtf lib_auto) 72).
  discriminate.
Defined.

(** X15. [main] catches nothing: when the input exists and the loader
    rejects it, the loader's exception ends the run, whatever writers are
    installed and whatever was asked for; no writer is called and nothing is
    printed as a warning. *)
Theorem X15_main_propagates_loader_error (has : Installed) (fs : FileSystem)
    (args : Namespace) (e : exn) :
  HAS_PPTX has = true ->
  path_exists fs (input_file args) = true ->
  Presentation (file_at fs (input_file args)) = Raise e ->
  main has fs args = (Uncaught e, []).
Proof.
  intros Hpptx Hex Hload. unfold main. rewrite Hpptx, Hex. cbn [negb].
  unfold extract_text_from_pptx. now rewrite Hload.
Qed.

Lemma X15_main_propagates_loader_error_witness :
  main SampleRun.everything SampleRun.fs
    (SampleRun.args "notes.txt" fmt_docx lib_auto)
  = (Uncaught FormatError, []).
Proof.
  apply (X15_main_propagates_loader_error SampleRun.everything SampleRun.fs
           (SampleRun.args "notes.txt" fmt_docx lib_auto) FormatError);
    reflexivity.
Defined.

(** X16. [--no-comments] changes nothing but the comments: the writer that
    is called, the output path, the slide numbers and the texts are those of
    the run without the flag, every comment list is empty, and no warning is
    printed. *)
Theorem X16_no_comments_flag (has : Installed) (fs : FileSystem)
    (args : Namespace) (prs : presentation) (zf : gmap string part) :
  HAS_PPTX has = true ->
  path_exists fs (input_file args) = true ->
  file_at fs (input_file args) = Package prs zf ->
  exists (data : list SlideRecord) (stderr : list warning),
    main has fs (set_no_comments args false) = (save has args data, stderr)
    /\ main has fs (set_no_comments args true)
       = (save has args (without_comments <$> data), []).
Proof.
  intros Hpptx Hex Hfile. unfold main.
  cbn [set_no_comments input_file no_comments]. rewrite Hpptx, Hex, Hfile.
  cbn [negb]. rewrite !extract_package, !save_set_no_comments.
  do 2 eexists. split; [reflexivity|].
  now rewrite records_without_comments.
Qed.

Lemma X16_no_comments_flag_witness :
  exists (data : list SlideRecord) (stderr : list warning),
    main SampleRun.everything SampleRun.fs
      (set_no_comments (SampleRun.args "deck.pptx" fmt_docx lib_native) false)
    = (save SampleRun.everything
         (SampleRun.args "deck.pptx" fmt_docx lib_native) data, stderr)
    /\ main SampleRun.everything SampleRun.fs
         (set_no_comments (SampleRun.args "deck.pptx" fmt_docx lib_native) true)
       = (save SampleRun.everything
            (SampleRun.args "deck.pptx" fmt_docx lib_native)
            (without_comments <$> data), []).
Proof.
  apply (X16_no_comments_flag SampleRun.everything SampleRun.fs
           (SampleRun.args "deck.pptx" fmt_docx lib_native)
           Sample.deck (Sample.archive Sample.alice_bob [] []));
    reflexivity.
Defined.

(** ** The output path *)

Lemma substring_all (s : string) : String.substring 0 (String.length s) s = s.
Proof. induction s as [|c s IH]; simpl; [reflexivity|now f_equal]. Qed.

Lemma substring_split (s : string) (n : nat) :
  String.substring 0 n s +:+ String.substring n (String.length s - n) s = s.
Proof.
  revert n. induction s as [|c s IH]; intros [|n]; simpl; try reflexivity.
  - change (String c (String.substring 0 (String.length s) s) = String c s).
    f_equal. apply substring_all.
  - rewrite str_app_cons. f_equal. apply IH.
Qed.

Lemma splitext_join (p : string) :
  (OsPath.splitext p).1 +:+ (OsPath.splitext p).2 = p.
Proof.
  unfold OsPath.splitext.
  destruct (OsPath.rfind "/" p <? OsPath.rfind "." p)%Z;
    [|apply str_app_nil_r].
  destruct (OsPath.any_not_dot _); [|apply str_app_nil_r].
  unfold OsPath.slice. cbn [fst snd]. rewrite Nat.sub_0_r.
  apply substring_split.
Qed.

(** X17. The output path is the input path exactly when the extension of
    the input is the output format; an input with the extension [.pptx] is
    never written over. *)
Theorem X17_output_path_is_input_path (args : Namespace) :
  (output_file_of args = input_file args
   <-> (OsPath.splitext (input_file args)).2
       = "." +:+ format_name (arg_output_format args))
  /\ ((OsPath.splitext (input_file args)).2 = ".pptx" ->
      output_file_of args <> input_file args).
Proof.
  assert (Hiff : output_file_of args = input_file args
                 <-> (OsPath.splitext (input_file args)).2
                     = "." +:+ format_name (arg_output_format args)).
  { unfold output_file_of. cbn zeta.
    rewrite <- (splitext_join (input_file args)) at 2. split.
    - intros H. now apply (inj _) in H.
    - now intros ->. }
  split; [exact Hiff|].
  intros Hext Heq. apply Hiff in Heq. rewrite Hext in Heq.
  destruct (arg_output_format args); discriminate Heq.
Qed.

Lemma X17_output_path_is_input_path_witness :
  output_file_of (SampleRun.args "talks/deck.v2.pptx" fmt_md lib_auto)
  <> "talks/deck.v2.pptx".
Proof.
  apply (X17_output_path_is_input_path
           (SampleRun.args "talks/deck.v2.pptx" fmt_md lib_auto)).
  reflexivity.
Defined.

(** * The extraction on objects that can lack a position or a text frame *)

Section objects.

Implicit Types (m : gmap nat (list string)) (sl : list Pptx.SlideObject).

Lemma read_slide_well_formed so :
  Pptx.well_formed_slide so = true ->
  exists s, Pptx.read_slide so = Ok s.
Proof.
  unfold Pptx.well_formed_slide, Pptx.read_slide, Pptx.sorted_text_shapes.
  intros [Hsort Hnotes]%andb_prop. apply negb_true_iff in Hsort.
  rewrite Hsort. destruct (Pptx.sl_notes so); eauto. discriminate.
Qed.

Lemma read_slide_ill_formed so :
  Pptx.well_formed_slide so = false ->
  Pptx.read_slide so = Raise TypeError
  \/ Pptx.read_slide so = Raise (AttributeError "text").
Proof.
  unfold Pptx.well_formed_slide, Pptx.read_slide, Pptx.sorted_text_shapes.
  destruct (Nat.leb 2 _ && existsb Pptx.no_top _); [now left|].
  destruct (Pptx.sl_notes so); try discriminate. now right.
Qed.

(** The loop over well-formed slides gives one record for each. *)
Lemma object_records_ok m sl :
  forallb Pptx.well_formed_slide sl = true ->
  forall i acc,
  exists records,
    Pptx.build_records m i sl acc = Ok (acc ++ records)
    /\ slide_number <$> records = seq (i + 1) (length sl)
    /\ Forall2 (fun r so => Pptx.slide_text_of so = Ok (slide_text r))
               records sl
    /\ Forall2 (fun r k => comments r = comments_at m k)
               records (seq (i + 1) (length sl)).
Proof.
  induction sl as [|so sl IH]; intros Hwf i acc.
  - exists []. rewrite app_nil_r. repeat split; constructor.
  - simpl in Hwf. apply andb_prop in Hwf as [Hso Hwf].
    destruct (read_slide_well_formed so Hso) as [s Hs].
    set (r0 := mkRecord (i + 1) (slide_body_text s)
                 (default [] (m !! (i + 1)))).
    destruct (IH Hwf (S i) (acc ++ [r0]))
      as (records & Hrun & Hnum & Htext & Hcm).
    exists (r0 :: records). simpl Pptx.build_records.
    unfold Pptx.slide_text_of at 1. rewrite Hs. fold r0.
    rewrite Hrun, <- app_assoc.
    split; [reflexivity|]. replace (S i + 1) with (S (i + 1)) in * by lia.
    split; [rewrite fmap_cons; cbn [length seq]; now f_equal|].
    split.
    + constructor; [|exact Htext]. unfold Pptx.slide_text_of. now rewrite Hs.
    + cbn [length seq]. constructor; [reflexivity|exact Hcm].
Qed.

(** The loop over slides of which one is not well formed raises, and what it
    raises is [TypeError] or [AttributeError]. *)
Lemma object_records_raise m sl :
  forallb Pptx.well_formed_slide sl = false ->
  forall i acc,
    Pptx.build_records m i sl acc = Raise TypeError
    \/ Pptx.build_records m i sl acc = Raise (AttributeError "text").
Proof.
  induction sl as [|so sl IH]; intros Hwf i acc; [discriminate|].
  simpl in Hwf. simpl. unfold Pptx.slide_text_of.
  destruct (Pptx.well_formed_slide so) eqn:Hso.
  - destruct (read_slide_well_formed so Hso) as [s ->]. now apply IH.
  - destruct (read_slide_ill_formed so Hso) as [-> | ->]; auto.
Qed.

Lemma extract_objects f include_comments :
  f <> Pptx.rejected ->
  Pptx.extract_text_from_pptx f include_comments
  = (Pptx.build_records
       (Pptx.collect_comments f (length (Pptx.slides_of f)) include_comments).1
       0 (Pptx.slides_of f) [],
     (Pptx.collect_comments f (length (Pptx.slides_of f)) include_comments).2).
Proof.
  intros Hf. unfold Pptx.extract_text_from_pptx.
  destruct f as [|sl|sl zf]; [congruence| |]; simpl;
    now destruct (Pptx.collect_comments _ _ _).
Qed.

End objects.



Lemma object_records_outcome m sl i acc :
  (exists records, Pptx.build_records m i sl acc = Ok records)
  \/ Pptx.build_records m i sl acc = Raise TypeError
  \/ Pptx.build_records m i sl acc = Raise (AttributeError "text").
Proof.
  destruct (forallb Pptx.well_formed_slide sl) eqn:Hwf.
  - left. destruct (object_records_ok m sl Hwf i acc) as (r & -> & _). eauto.
  - right. now apply object_records_raise.
Qed.

(** C9, as stated: a directory that holds an unpacked package is not a
    ZIP, and [zipfile.ZipFile] raises on it; yet the call does not fail.  The
    loader takes the directory, the error of [ZipFile] is absorbed by the
    comment handling, and the records are returned. *)
Lemma C9_counterexample :
  Pptx.ZipFile (Pptx.directory SampleObjects.objects) = Raise IsADirectoryError
  /\ exists records : list SlideRecord,
       Pptx.extract_text_from_pptx (Pptx.directory SampleObjects.objects) true
       = (Ok records, [CouldNotExtractComments IsADirectoryError])
       /\ slide_number <$> records = [1; 2; 3].
Proof.
  split; [reflexivity|]. eexists. split; [vm_compute; reflexivity|reflexivity].
Qed.

(** C9, amended. When the loader rejects the input (a corrupt ZIP, a file
    of another type) the call raises the loader's error, with comments on or
    off, and prints no warning; in no other case does the loader's error
    reach the caller.  When the loader accepts an input that [ZipFile] does
    not open, the error of [ZipFile] does not reach the caller: it is
    absorbed as the one warning of the comment handling. *)
Theorem C9_loader_error_is_fatal (f : Pptx.input) (include_comments : bool) :
  (f = Pptx.rejected ->
   Pptx.extract_text_from_pptx f include_comments = (Raise FormatError, []))
  /\ ((Pptx.extract_text_from_pptx f include_comments).1 = Raise FormatError
      <-> f = Pptx.rejected)
  /\ (forall e,
        f <> Pptx.rejected ->
        Pptx.ZipFile f = Raise e ->
        (Pptx.extract_text_from_pptx f include_comments).1 <> Raise e
        /\ (Pptx.extract_text_from_pptx f true).2
           = [CouldNotExtractComments e]).
Proof.
  split; [now intros ->|]. split; [split|].
  - destruct f as [|sl|sl zf]; [reflexivity| |]; intros H; exfalso;
      rewrite extract_objects in H by discriminate; cbn [fst] in H;
      match type of H with
      | Pptx.build_records ?m ?i ?l ?acc = _ =>
          destruct (object_records_outcome m l i acc)
            as [[r Hr] | [Hr | Hr]]; rewrite Hr in H; discriminate H
      end.
  - now intros ->.
  - intros e Hf He. destruct f as [|sl|sl zf]; [congruence| |discriminate].
    injection He as <-. rewrite !extract_objects by discriminate.
    cbn [fst snd]. split; [|reflexivity].
    match goal with
    | |- Pptx.build_records ?m ?i ?l ?acc <> _ =>
        destruct (object_records_outcome m l i acc)
          as [[r Hr] | [Hr | Hr]]; rewrite Hr; discriminate
    end.
Qed.

Lemma C9_loader_error_is_fatal_witness :
  Pptx.extract_text_from_pptx Pptx.rejected true = (Raise FormatError, [])
  /\ (Pptx.extract_text_from_pptx
        (Pptx.directory SampleObjects.objects) false).1
     <> Raise IsADirectoryError.
Proof.
  split.
  - apply (C9_loader_error_is_fatal Pptx.rejected true). reflexivity.
  - apply (C9_loader_error_is_fatal (Pptx.directory SampleObjects.objects)
             false); [discriminate|reflexivity].
Defined.

(** * Trimming *)

Lemma lstrip_split s :
  exists leading, all_space leading = true /\ s = leading +:+ lstrip s.
Proof.
  induction s as [|a s (leading & Hl & Hs)]; [now exists EmptyString|].
  simpl. destruct (isspace a) eqn:Ha.
  - exists (String a leading). simpl. rewrite Ha, Hl. split; [reflexivity|].
    rewrite str_app_cons. now f_equal.
  - now exists EmptyString.
Qed.

Lemma rstrip_split s :
  exists trailing, all_space trailing = true /\ s = rstrip s +:+ trailing.
Proof.
  induction s as [|a s (trailing & Ht & Hs)]; [now exists EmptyString|].
  simpl. destruct (rstrip s) as [|d r] eqn:Hr.
  - simpl in Hs. subst s. destruct (isspace a) eqn:Ha.
    + exists (String a trailing). simpl. now rewrite Ha, Ht.
    + now exists trailing.
  - exists trailing. split; [exact Ht|]. rewrite str_app_cons. now f_equal.
Qed.

Lemma rstrip_last s front c :
  rstrip s = front +:+ String c EmptyString -> isspace c = false.
Proof.
  revert front. induction s as [|a s IH]; intros front; simpl.
  - now destruct front.
  - destruct (rstrip s) as [|d r] eqn:Hr.
    + destruct (isspace a) eqn:Ha; [now destruct front|].
      destruct front as [|x [|y front]]; try discriminate.
      now intros [= <-].
    + destruct front as [|x front]; [discriminate|].
      rewrite str_app_cons. intros [= _ H]. now apply (IH front).
Qed.

Lemma strip_first s c rest : strip s = String c rest -> isspace c = false.
Proof.
  unfold strip. pose proof (lstrip_head s) as Hh.
  destruct (lstrip s) as [|a t]; [discriminate|]. simpl.
  rewrite Hh. destruct (rstrip t); now intros [= <- _].
Qed.

(** The trimmed string is the middle of the string, between white space,
    and has no white space at either end. *)
Lemma strip_spec s :
  (exists leading trailing,
     all_space leading = true /\ all_space trailing = true
     /\ s = leading +:+ strip s +:+ trailing)
  /\ (forall c rest, strip s = String c rest -> isspace c = false)
  /\ (forall front c,
        strip s = front +:+ String c EmptyString -> isspace c = false).
Proof.
  split; [|split].
  - destruct (lstrip_split s) as (leading & Hl & Hs).
    destruct (rstrip_split (lstrip s)) as (trailing & Ht & Hs').
    exists leading, trailing. repeat split; auto.
    unfold strip. now rewrite <- Hs'.
  - apply strip_first.
  - intros front c. unfold strip. apply rstrip_last.
Qed.

(** C5. The body text of a slide is assembled from the sorted text shapes:
    within a shape the non-empty paragraphs are joined by the line-break
    marker, the non-empty shape texts (and the notes part) are joined by a
    blank line, and the result is trimmed, that is: the body text is what
    stands in the joined string between leading and trailing white space, and
    has no white space at either end.  "Title" above "Subtitle" gives
    "Title", a blank line, "Subtitle", whichever shape was created first, and
    white space around the shape texts goes at both ends only. *)
Theorem C5_body_text_assembly (slide : Slide) :
  let joined :=
    join blank_line
      (filter (fun t => truthy t = true)
         (map (fun shape =>
                 join line_break
                   (filter (fun p => truthy p = true) (paragraphs shape)))
              (text_shapes slide)
          ++ Spec.notes_part slide)) in
  (exists leading trailing,
     all_space leading = true /\ all_space trailing = true
     /\ joined = leading +:+ slide_body_text slide +:+ trailing)
  /\ (forall c rest,
        slide_body_text slide = String c rest -> isspace c = false)
  /\ (forall front c,
        slide_body_text slide = front +:+ String c EmptyString ->
        isspace c = false)
  /\ slide_body_text Sample.title_slide = "Title" +:+ LF +:+ LF +:+ "Subtitle"
  /\ slide_body_text Sample.title_slide_rev
     = "Title" +:+ LF +:+ LF +:+ "Subtitle"
  /\ slide_body_text Sample.padded_slide
     = "Title  " +:+ LF +:+ "line 2 " +:+ LF +:+ LF +:+ " Subtitle".
Proof.
  intros joined.
  assert (slide_body_text slide = strip joined) as ->
    by apply slide_body_text_spec.
  destruct (strip_spec joined) as (Hmid & Hfirst & Hlast).
  split; [exact Hmid|]. split; [exact Hfirst|]. split; [exact Hlast|].
  repeat split.
Qed.

Lemma C5_body_text_assembly_witness :
  isspace "T" = false.
Proof.
  destruct (C5_body_text_assembly Sample.padded_slide) as (_ & Hfirst & _).
  apply (Hfirst "T"%char
           ("itle  " +:+ LF +:+ "line 2 " +:+ LF +:+ LF +:+ " Subtitle")).
  reflexivity.
Defined.

(** * Relationship parts in the namespace of the format *)

Lemma package_rels_not_found (targets : list string) :
  findall_desc tag_Relationship
    (Sample.el (qname Sample.ns_package "Relationships")
       (map (fun t => mkElement (qname Sample.ns_package "Relationship")
                        {["Target" := t]} None [])
            targets))
  = [].
Proof.
  unfold findall_desc, descendants. simpl children.
  induction targets as [|t targets IH]; [reflexivity|].
  simpl flat_map. simpl app. rewrite filter_cons, decide_False; [exact IH|].
  vm_compute. discriminate.
Qed.

(** C6. On a package written as the format prescribes, with the
    relationship entries of a slide in the namespace of relationship parts,
    line 73 finds no entry, because [ns] names another namespace under [r]:
    the comment part listing Alice then Bob is never opened and the comments
    field of every slide is empty, without a warning.  The same package with
    the entries in the namespace line 53 names gives Alice's comment before
    Bob's, each as one string. *)
Theorem C6_conformant_package_gives_no_comments :
  (forall (zf : gmap string part) (i : nat) (targets : list string)
          (m : gmap nat (list string)),
      zf !! rel_file_path i = Some (Sample.package_rels targets) ->
      scan_slide zf i m = (Ok tt, m))
  /\ (exists records : list SlideRecord,
        extract_text_from_pptx Sample.conformant true = (Ok records, [])
        /\ comments <$> records = [[]; []; []])
  /\ (exists records : list SlideRecord,
        extract_text_from_pptx Sample.commented true = (Ok records, [])
        /\ comments <$> records
           = [["Alice: Looks good"; "Bob: Fix typo"]; []; []]).
Proof.
  split; [|split].
  - intros zf i targets m H. unfold scan_slide. rewrite H.
    unfold Sample.package_rels, bind, lift, ET_parse.
    now rewrite package_rels_not_found.
  - eexists. split; [vm_compute; reflexivity|reflexivity].
  - eexists. split; [vm_compute; reflexivity|reflexivity].
Qed.

Lemma C6_conformant_package_gives_no_comments_witness :
  scan_slide
    (<[rel_file_path 1 := Sample.package_rels ["../comments/comment1.xml"]]>
       (<["ppt/comments/comment1.xml" := Sample.cmLst Sample.alice_bob]> ∅))
    1 ∅
  = (Ok tt, ∅).
Proof.
  destruct C6_conformant_package_gives_no_comments as (H & _).
  apply (H _ 1 ["../comments/comment1.xml"]). apply lookup_insert_eq.
Defined.

(** * The two levels agree *)

Lemma located_of_shape (s : Shape) : Pptx.located (Pptx.of_shape s) = s.
Proof. now destruct s. Qed.

Lemma of_shape_placed (l : list Shape) :
  existsb Pptx.no_top
    (filter (fun s => Pptx.sp_has_text_frame s = true) (map Pptx.of_shape l))
  = false.
Proof.
  induction l as [|s l IH]; [reflexivity|]. simpl map. rewrite filter_cons.
  destruct (decide _); [simpl; exact IH|exact IH].
Qed.

Lemma read_of_slide (s : Slide) : Pptx.read_slide (Pptx.of_slide s) = Ok s.
Proof.
  unfold Pptx.read_slide, Pptx.sorted_text_shapes, Pptx.of_slide.
  cbn [Pptx.sl_shapes Pptx.sl_notes]. rewrite of_shape_placed, andb_false_r.
  rewrite map_map, (map_ext _ id), map_id by apply located_of_shape.
  now destruct s as [sh [t|]].
Qed.

(** On slides whose shapes have positions and whose notes slides have text
    frames, the call on objects is the call of the first part. *)
Lemma objects_agree (prs : presentation) (zf : gmap string part)
    (include_comments : bool) :
  Pptx.extract_text_from_pptx
    (Pptx.zip (map Pptx.of_slide (slides prs)) zf) include_comments
  = extract_text_from_pptx (Package prs zf) include_comments.
Proof.
  unfold Pptx.extract_text_from_pptx, extract_text_from_pptx.
  cbn [Pptx.Presentation Presentation]. rewrite length_map.
  replace (Pptx.collect_comments _ (length (slides prs)) include_comments)
    with (collect_comments (Package prs zf) prs include_comments)
    by reflexivity.
  destruct (collect_comments _ _ _) as [m w]. f_equal.
  generalize (@nil SlideRecord). generalize 0.
  induction (slides prs) as [|s l IH]; intros i acc; [reflexivity|].
  simpl. unfold Pptx.slide_text_of. rewrite read_of_slide. apply IH.
Qed.
